(** * English-learning app: progress tracker and conversation session

  A shallow embedding of the client-side learning core:

  - [ProgressTracker] (spaced repetition, activity streak, topic progress),
  - [ConversationManager] (chat turn-taking and the voice-recording
    lifecycle),

  followed by the properties checked against the written specification.

  JavaScript numbers are IEEE-754 binary64 values, embedded as Rocq's
  primitive floats, so that every arithmetic step below is the one the
  browser performs.  Time values are integral milliseconds. *)

From Stdlib Require Import ZArith List String Ascii Bool Lia.
From Stdlib Require Import PrimFloat SpecFloat FloatOps FloatAxioms.
From Stdlib Require Import DecimalString.
From Stdlib Require Import Sorted Permutation.
Import ListNotations.

Set Warnings "-inexact-float".
Set Implicit Arguments.

Local Open Scope Z_scope.

(* ================================================================== *)
(** ** The fragment of JavaScript the sources rely on *)

Module JS.

(** A JavaScript Number. *)
Definition number := float.

(** Integer to Number, rounding to nearest-even as the language does. *)
Definition of_Z (z : Z) : number :=
  SF2Prim (binary_normalize prec emax z 0 false).

(** [Math.round]: the nearest integral Number, ties towards +infinity;
    NaN, the infinities and the zeros are returned as they are, and a
    result of zero keeps the sign of the argument. *)
Definition Math_round (x : number) : number :=
  match Prim2SF x with
  | S754_finite s m e =>
      if 0 <=? e then x
      else
        let v := if s then Z.neg m else Z.pos m in
        let k := - e in
        let n := (2 * v + 2 ^ k) / 2 ^ (k + 1) in
        if n =? 0 then (if s then neg_zero else zero) else of_Z n
  | _ => x
  end.

(** [Math.max] of two Numbers: NaN is contagious and +0 is above -0. *)
Definition Math_max (a b : number) : number :=
  if is_nan a || is_nan b then nan
  else if PrimFloat.ltb a b then b
  else if PrimFloat.ltb b a then a
  else if get_sign a then b else a.

(** A [Date] object holds an integral time value, or is an Invalid Date
    ([None]).  Time values are milliseconds on the clock the browser
    reports; calendar days are taken on that same clock. *)
Definition Date := option Z.

Definition maxTimeValue : Z := 8640000000000000.

(** [new Date(t)] for a Number [t] (the TimeClip operation). *)
Definition new_Date (t : number) : Date :=
  match Prim2SF t with
  | S754_zero _ => Some 0
  | S754_finite s m e =>
      let a := if 0 <=? e then Z.pos m * 2 ^ e else Z.pos m / 2 ^ (- e) in
      if a <=? maxTimeValue then Some (if s then - a else a) else None
  | _ => None
  end.

(** [d.getTime()] for a valid date [t]. *)
Definition getTime (t : Z) : number := of_Z t.

Definition msPerDay : Z := 24 * 60 * 60 * 1000.

(** [d.toDateString()]: the label of the calendar day of [d]; two dates
    have the same label exactly when they fall on the same day, so the
    label is represented by the index of the day. *)
Definition toDateString (t : Z) : Z := t / msPerDay.

(** The date obtained by [d.setDate(d.getDate() - 1)]. *)
Definition dayBefore (t : Z) : Z := t - msPerDay.

(** [d1 <= d2] on dates: the comparison of the time values, false as
    soon as one of them is NaN. *)
Definition date_le (d1 d2 : Date) : bool :=
  match d1, d2 with
  | Some a, Some b => a <=? b
  | _, _ => false
  end.

(** [d1 - d2] on dates, as far as a sort comparator looks at it: the
    sign of the difference, a NaN difference counting as 0. *)
Definition date_diff_sign (d1 d2 : Date) : comparison :=
  match d1, d2 with
  | Some a, Some b => a ?= b
  | _, _ => Eq
  end.

(** [Array.prototype.sort] with a comparator: a stable sort, written as
    insertion from the right, which keeps equal elements in their
    original order. *)
Section Sort.
Variable A : Type.
Variable cmp : A -> A -> comparison.

Fixpoint sort_insert (x : A) (l : list A) : list A :=
    match l with
    | [] => [x]
    | y :: l' =>
        match cmp x y with
        | Gt => y :: sort_insert x l'
        | _ => x :: l
        end
    end.

Fixpoint sort (l : list A) : list A :=
    match l with
    | [] => []
    | x :: l' => sort_insert x (sort l')
    end.
End Sort.

(** Plain objects used as maps from string keys: properties are kept in
    insertion order, which is the order [Object.values] lists them in
    (the keys met here are never array indices). *)
Section Obj.
Variable V : Type.

Definition object := list (string * V).

Fixpoint get (o : object) (k : string) : option V :=
    match o with
    | [] => None
    | (k', v) :: o' => if String.eqb k' k then Some v else get o' k
    end.

Fixpoint set (o : object) (k : string) (v : V) : object :=
    match o with
    | [] => [(k, v)]
    | (k', v') :: o' =>
        if String.eqb k' k then (k', v) :: o' else (k', v') :: set o' k v
    end.

Definition Object_values (o : object) : list V := map snd o.
End Obj.

(** [s.includes(t)]. *)
Fixpoint includes (s t : string) : bool :=
  if String.prefix t s then true
  else match s with
       | EmptyString => false
       | String _ s' => includes s' t
       end.

(** White space removed by [trim] (the ASCII part of it). *)
Definition is_space (c : ascii) : bool :=
  let n := nat_of_ascii c in
  (Nat.eqb n 32 || Nat.eqb n 9 || Nat.eqb n 10 || Nat.eqb n 11
   || Nat.eqb n 12 || Nat.eqb n 13)%bool.

Fixpoint trimStart (s : string) : string :=
  match s with
  | String c s' => if is_space c then trimStart s' else s
  | EmptyString => EmptyString
  end.

Fixpoint trimEnd (s : string) : string :=
  match s with
  | EmptyString => EmptyString
  | String c s' =>
      match trimEnd s' with
      | EmptyString => if is_space c then EmptyString else String c EmptyString
      | r => String c r
      end
  end.

Definition trim (s : string) : string := trimEnd (trimStart s).

(** Decimal rendering of an integer, as in a template literal. *)
Definition toString (z : Z) : string := NilZero.string_of_int (Z.to_int z).

(** How a call ends: normally with a value, or abruptly with a thrown
    error carrying a message. *)
Inductive completion (A : Type) : Type :=
| Normal (a : A)
| Throw (message : string).
Arguments Throw {A} message.

End JS.

(* ================================================================== *)
(** ** CONFIG (frontend/js/config_pythonanywhere.js) *)

Module CONFIG.

Module SPACED_REPETITION.
Definition INITIAL_INTERVAL : JS.number := 1%float.
Definition EASY_FACTOR : JS.number := 2.5%float.
Definition MIN_FACTOR : JS.number := 1.3%float.
Definition FACTOR_CHANGE : JS.number := 0.1%float.
Definition MIN_INTERVAL : JS.number := 1%float.
Definition MAX_INTERVAL : JS.number := 365%float.
End SPACED_REPETITION.

(** [CONFIG.LEVELS[level]?.topics || []]. *)
Definition LEVELS_topics (level : Z) : list string :=
  match level with
  | 1 => ["greetings"; "family"; "about_me"; "numbers"; "appearance";
          "clothes"; "food"; "meals"; "weather"; "body_parts";
          "doctor_conversation"; "sports"; "time_activities";
          "days_week"; "transportation"; "friends"]%string
  | 2 => ["hometown"; "family_relatives"; "extended_family"; "all_about_me";
          "hobbies"; "jobs"; "restaurant"; "groceries"; "directions";
          "emergency"; "celebrations"; "situational"; "household_items";
          "medical_vocabulary"; "doctor_advanced"; "school"; "airport_1";
          "airport_2"]%string
  | 3 => ["family_hometown_advanced"; "likes_dislikes"; "seasons_games";
          "appearance_advanced"; "outdoors"; "kuala_lumpur_transport";
          "food_advanced"; "eating_out"; "injury_body"; "doctor_detailed";
          "emotions_1"; "emotions_2"; "emotions_3"; "friends_advanced";
          "situational_advanced"; "time_daily_advanced"; "addresses";
          "dentist"]%string
  | 4 => ["novels_reading"; "complex_conversations"; "academic_english";
          "professional_communication"; "advanced_grammar"]%string
  | _ => []
  end.

End CONFIG.

(* ================================================================== *)
(** ** ProgressTracker *)

Module ProgressTracker.

Import JS.

(** *** Data *)

(** The three values the [status] property of a topic record takes. *)
Inductive Status := not_started | in_progress | completed.

Definition Status_eqb (a b : Status) : bool :=
  match a, b with
  | not_started, not_started | in_progress, in_progress
  | completed, completed => true
  | _, _ => false
  end.

(** An entry of [progress.level_progress].  Dates stored as ISO strings
    are kept as their time value; [null] is [None]. *)
Record TopicProgress := {
  status : Status;
  phrases_learned : Z;
  conversations_completed : Z;
  last_practiced : option Z;
  completion_date : option Z;
  practice_sessions : Z
}.

(** The [data] object handed to [addAchievement]. *)
Inductive AchievementData :=
| topic_data (topic : string) (date : Z)
| streak_data (streak : Z)
| level_data (level : Z) (date : Z).

Record Achievement := {
  achievement_id : string;
  achievement_type : string;
  achievement_data : AchievementData;
  earned_at : Z
}.

(** [this.progress]: the properties read or written by the methods
    below. *)
Record Progress := {
  level : Z;
  topics_completed : list string;
  topics_in_progress : list string;
  progress_current_streak : Z;
  progress_longest_streak : Z;
  level_progress : object TopicProgress;
  achievements : list Achievement;
  conversation_count : Z
}.

(** [this.streakData]. *)
Record StreakData := {
  current_streak : Z;
  longest_streak : Z;
  last_activity_date : option Z;
  streak_start_date : option Z
}.

(** An entry of [spacedRepetitionData.items]. *)
Record SpacedRepetitionItem := {
  id : string;
  phrase : string;
  translation : string;
  topic : string;
  interval : number;
  repetitions : number;
  ease_factor : number;
  next_review : Date;
  created_at : Z;
  last_reviewed : option Z
}.

Record SpacedRepetitionData := {
  items : object SpacedRepetitionItem
}.

(** The tracker object. *)
Record t := {
  progress : Progress;
  streakData : StreakData;
  spacedRepetitionData : SpacedRepetitionData
}.

(** *** Methods as state transformers

    A method runs on the tracker and ends with a completion.  Writes to
    local storage, console logging and notification pop-ups do not feed
    back into the tracker and are left out; the clock reading taken by a
    method is its [now] argument. *)

Definition M (A : Type) : Type := t -> completion A * t.

Definition ret {A} (a : A) : M A := fun s => (Normal a, s).

Definition bind {A B} (m : M A) (k : A -> M B) : M B :=
  fun s =>
    match m s with
    | (Normal a, s') => k a s'
    | (Throw e, s') => (Throw e, s')
    end.

Definition gets {A} (f : t -> A) : M A := fun s => (Normal (f s), s).
Definition modify (f : t -> t) : M unit := fun s => (Normal tt, f s).

Declare Scope tracker_scope.
Delimit Scope tracker_scope with tracker.
Notation "x <- c ;; k" := (bind c (fun x => k))
  (at level 61, c at next level, right associativity) : tracker_scope.
Notation "c ;; k" := (bind c (fun _ => k))
  (at level 61, right associativity) : tracker_scope.
Local Open Scope tracker_scope.

(** Field updates. *)
Definition with_progress (f : Progress -> Progress) (s : t) : t :=
  {| progress := f (progress s);
     streakData := streakData s;
     spacedRepetitionData := spacedRepetitionData s |}.

Definition with_streakData (f : StreakData -> StreakData) (s : t) : t :=
  {| progress := progress s;
     streakData := f (streakData s);
     spacedRepetitionData := spacedRepetitionData s |}.

Definition with_items
    (f : object SpacedRepetitionItem -> object SpacedRepetitionItem)
    (s : t) : t :=
  {| progress := progress s;
     streakData := streakData s;
     spacedRepetitionData := {| items := f (items (spacedRepetitionData s)) |} |}.

Definition set_level_progress (k : string) (tp : TopicProgress)
    (p : Progress) : Progress :=
  {| level := level p;
     topics_completed := topics_completed p;
     topics_in_progress := topics_in_progress p;
     progress_current_streak := progress_current_streak p;
     progress_longest_streak := progress_longest_streak p;
     level_progress := JS.set (level_progress p) k tp;
     achievements := achievements p;
     conversation_count := conversation_count p |}.

Definition set_topics_in_progress (l : list string) (p : Progress) : Progress :=
  {| level := level p;
     topics_completed := topics_completed p;
     topics_in_progress := l;
     progress_current_streak := progress_current_streak p;
     progress_longest_streak := progress_longest_streak p;
     level_progress := level_progress p;
     achievements := achievements p;
     conversation_count := conversation_count p |}.

Definition set_topics_completed (l : list string) (p : Progress) : Progress :=
  {| level := level p;
     topics_completed := l;
     topics_in_progress := topics_in_progress p;
     progress_current_streak := progress_current_streak p;
     progress_longest_streak := progress_longest_streak p;
     level_progress := level_progress p;
     achievements := achievements p;
     conversation_count := conversation_count p |}.

Definition set_streaks (c l : Z) (p : Progress) : Progress :=
  {| level := level p;
     topics_completed := topics_completed p;
     topics_in_progress := topics_in_progress p;
     progress_current_streak := c;
     progress_longest_streak := l;
     level_progress := level_progress p;
     achievements := achievements p;
     conversation_count := conversation_count p |}.

Definition push_achievement (a : Achievement) (p : Progress) : Progress :=
  {| level := level p;
     topics_completed := topics_completed p;
     topics_in_progress := topics_in_progress p;
     progress_current_streak := progress_current_streak p;
     progress_longest_streak := progress_longest_streak p;
     level_progress := level_progress p;
     achievements := achievements p ++ [a];
     conversation_count := conversation_count p |}.

Definition incr_conversation_count (p : Progress) : Progress :=
  {| level := level p;
     topics_completed := topics_completed p;
     topics_in_progress := topics_in_progress p;
     progress_current_streak := progress_current_streak p;
     progress_longest_streak := progress_longest_streak p;
     level_progress := level_progress p;
     achievements := achievements p;
     conversation_count := conversation_count p + 1 |}.

(** [arr.includes(x)] and removal of the element at [arr.indexOf(x)]. *)
Definition includes_topic (l : list string) (x : string) : bool :=
  existsb (String.eqb x) l.

Fixpoint remove_first (x : string) (l : list string) : list string :=
  match l with
  | [] => []
  | y :: l' => if String.eqb y x then l' else y :: remove_first x l'
  end.

(** *** Achievements *)

(** [addAchievement(type, data)].  The badge looked up in
    [CONFIG.GAMIFICATION_CONFIG.badges] only words a notification. *)
Definition addAchievement (type : string) (data : AchievementData)
    (now : Z) : M unit :=
  modify (with_progress (push_achievement
    {| achievement_id := toString now;
       achievement_type := type;
       achievement_data := data;
       earned_at := now |})).

(** *** Activity streak *)

(** [updateActivityStreak()]. *)
Definition updateActivityStreak (now : Z) : M unit :=
  let today := toDateString now in
  lastActivity <- gets (fun s => last_activity_date (streakData s)) ;;
  let firstToday :=
    match lastActivity with
    | None => true
    | Some la => negb (toDateString la =? today)
    end in
  if firstToday then
    let yesterday := dayBefore now in
    let continues :=
      match lastActivity with
      | None => false
      | Some la => toDateString la =? toDateString yesterday
      end in
    modify (with_streakData (fun sd =>
      if continues then
        {| current_streak := current_streak sd + 1;
           longest_streak := longest_streak sd;
           last_activity_date := last_activity_date sd;
           streak_start_date := streak_start_date sd |}
      else
        {| current_streak := 1;
           longest_streak := longest_streak sd;
           last_activity_date := last_activity_date sd;
           streak_start_date := Some today |})) ;;
    modify (with_streakData (fun sd =>
      {| current_streak := current_streak sd;
         longest_streak := longest_streak sd;
         last_activity_date := Some now;
         streak_start_date := streak_start_date sd |})) ;;
    sd <- gets streakData ;;
    (if longest_streak sd <? current_streak sd then
       modify (with_streakData (fun sd =>
         {| current_streak := current_streak sd;
            longest_streak := current_streak sd;
            last_activity_date := last_activity_date sd;
            streak_start_date := streak_start_date sd |})) ;;
       if current_streak sd =? 7 then
         addAchievement "week_streak" (streak_data 7) now
       else if current_streak sd =? 30 then
         addAchievement "month_streak" (streak_data 30) now
       else ret tt
     else ret tt) ;;
    sd <- gets streakData ;;
    modify (with_progress (set_streaks (current_streak sd) (longest_streak sd)))
  else ret tt.

(** *** Topic progress *)

(** [checkLevelCompletion()]. *)
Definition checkLevelCompletion (now : Z) : M unit :=
  currentLevel <- gets (fun s => level (progress s)) ;;
  let levelTopics := CONFIG.LEVELS_topics currentLevel in
  completedTopics <- gets (fun s => topics_completed (progress s)) ;;
  let levelCompleted := forallb (includes_topic completedTopics) levelTopics in
  if levelCompleted then
    addAchievement "level_completed" (level_data currentLevel now) now
  else ret tt.

(** [updateConversationProgress(topicId)]. *)
Definition updateConversationProgress (topicId : string) (now : Z) : M unit :=
  existing <- gets (fun s => get (level_progress (progress s)) topicId) ;;
  let topicProgress :=
    match existing with
    | Some tp => tp
    | None =>
        {| status := in_progress;
           phrases_learned := 0;
           conversations_completed := 0;
           last_practiced := None;
           completion_date := None;
           practice_sessions := 0 |}
    end in
  let wasNotStarted := Status_eqb (status topicProgress) not_started in
  modify (with_progress (set_level_progress topicId
    {| status := if wasNotStarted then in_progress else status topicProgress;
       phrases_learned := phrases_learned topicProgress;
       conversations_completed := conversations_completed topicProgress + 1;
       last_practiced := Some now;
       completion_date := completion_date topicProgress;
       practice_sessions := practice_sessions topicProgress + 1 |})) ;;
  (if wasNotStarted then
     modify (with_progress (fun p =>
       set_topics_in_progress (topics_in_progress p ++ [topicId]) p))
   else ret tt) ;;
  modify (with_progress incr_conversation_count) ;;
  updateActivityStreak now.

(** [completeTopic(topicId)]. *)
Definition completeTopic (topicId : string) (now : Z) : M unit :=
  existing <- gets (fun s => get (level_progress (progress s)) topicId) ;;
  match existing with
  | None => ret tt
  | Some topicProgress =>
      modify (with_progress (set_level_progress topicId
        {| status := completed;
           phrases_learned := phrases_learned topicProgress;
           conversations_completed := conversations_completed topicProgress;
           last_practiced := last_practiced topicProgress;
           completion_date := Some now;
           practice_sessions := practice_sessions topicProgress |})) ;;
      modify (with_progress (fun p =>
        set_topics_in_progress (remove_first topicId (topics_in_progress p)) p)) ;;
      modify (with_progress (fun p =>
        if includes_topic (topics_completed p) topicId then p
        else set_topics_completed (topics_completed p ++ [topicId]) p)) ;;
      addAchievement "topic_completed" (topic_data topicId now) now ;;
      checkLevelCompletion now
  end.

(** *** Spaced repetition (SM-2) *)

(** [addSpacedRepetitionItem(phrase, translation, topicId)]; returns the
    key of the new item. *)
Definition addSpacedRepetitionItem (phrase translation topicId : string)
    (now : Z) : M string :=
  let itemId := (topicId ++ "_" ++ toString now)%string in
  let item :=
    {| id := itemId;
       phrase := phrase;
       translation := translation;
       topic := topicId;
       interval := CONFIG.SPACED_REPETITION.INITIAL_INTERVAL;
       repetitions := 0%float;
       ease_factor := CONFIG.SPACED_REPETITION.EASY_FACTOR;
       next_review :=
         new_Date (getTime now
                   + CONFIG.SPACED_REPETITION.INITIAL_INTERVAL
                     * 24 * 60 * 60 * 1000)%float;
       created_at := now;
       last_reviewed := None |} in
  modify (with_items (fun o => JS.set o itemId item)) ;;
  ret itemId.

(** The new [interval] and [repetitions] chosen by the SM-2 branch, from
    the incremented repetition count. *)
Definition sm2_interval (quality : number) (item : SpacedRepetitionItem)
    : number * number :=
  let reps := (repetitions item + 1)%float in
  if PrimFloat.leb 3 quality then
    if PrimFloat.eqb reps 1 then (1%float, reps)
    else if PrimFloat.eqb reps 2 then (6%float, reps)
    else (Math_round (interval item * ease_factor item)%float, reps)
  else (1%float, 0%float).

(** The new [ease_factor]. *)
Definition sm2_ease_factor (quality : number) (ease : number) : number :=
  Math_max CONFIG.SPACED_REPETITION.MIN_FACTOR
    (ease + (0.1 - (5 - quality) * (0.08 + (5 - quality) * 0.02)))%float.

(** The item after one review. *)
Definition review (quality : number) (now : Z) (item : SpacedRepetitionItem)
    : SpacedRepetitionItem :=
  let (interval', repetitions') := sm2_interval quality item in
  {| id := id item;
     phrase := phrase item;
     translation := translation item;
     topic := topic item;
     interval := interval';
     repetitions := repetitions';
     ease_factor := sm2_ease_factor quality (ease_factor item);
     next_review :=
       new_Date (getTime now + interval' * 24 * 60 * 60 * 1000)%float;
     created_at := created_at item;
     last_reviewed := Some now |}.

(** [updateSpacedRepetitionItem(itemId, quality)]. *)
Definition updateSpacedRepetitionItem (itemId : string) (quality : number)
    (now : Z) : M unit :=
  found <- gets (fun s => get (items (spacedRepetitionData s)) itemId) ;;
  match found with
  | None => ret tt
  | Some item =>
      modify (with_items (fun o => JS.set o itemId (review quality now item)))
  end.

(** [getDueSpacedRepetitionItems()]. *)
Definition getDueSpacedRepetitionItems (now : Z)
    : M (list SpacedRepetitionItem) :=
  all <- gets (fun s => Object_values (items (spacedRepetitionData s))) ;;
  let dueItems := filter (fun item => date_le (next_review item) (Some now)) all in
  ret (JS.sort (fun a b => date_diff_sign (next_review a) (next_review b))
               dueItems).

(** The tracker of a user without stored data. *)
Definition empty : t :=
  {| progress :=
       {| level := 1;
          topics_completed := [];
          topics_in_progress := [];
          progress_current_streak := 0;
          progress_longest_streak := 0;
          level_progress := [];
          achievements := [];
          conversation_count := 0 |};
     streakData :=
       {| current_streak := 0;
          longest_streak := 0;
          last_activity_date := None;
          streak_start_date := None |};
     spacedRepetitionData := {| items := [] |} |}.

(** The state a call ends in, and its completion. *)
Definition exec {A} (m : M A) (s : t) : t := snd (m s).
Definition outcome {A} (m : M A) (s : t) : completion A := fst (m s).

(** *** Observations used to state the properties *)

(** Position of a status on the path not_started, in_progress,
    completed. *)
Definition status_rank (st : Status) : nat :=
  match st with
  | not_started => 0
  | in_progress => 1
  | completed => 2
  end.

(** The status recorded for a topic, if the topic has a record. *)
Definition topic_status (s : t) (topicId : string) : option Status :=
  option_map status (get (level_progress (progress s)) topicId).

(** A topic without a record has not been started. *)
Definition topic_rank (s : t) (topicId : string) : nat :=
  match topic_status s topicId with
  | Some st => status_rank st
  | None => 0
  end.

(** The topic operations, each with the clock reading of its call. *)
Inductive TopicOp :=
| UpdateConversationProgress (topicId : string) (now : Z)
| CompleteTopic (topicId : string) (now : Z).

Definition apply_op (op : TopicOp) : M unit :=
  match op with
  | UpdateConversationProgress topicId now => updateConversationProgress topicId now
  | CompleteTopic topicId now => completeTopic topicId now
  end.

Fixpoint run_ops (ops : list TopicOp) (s : t) : t :=
  match ops with
  | [] => s
  | op :: ops' => run_ops ops' (exec (apply_op op) s)
  end.

(** The item stored under a key. *)
Definition item_at (s : t) (itemId : string) : option SpacedRepetitionItem :=
  get (items (spacedRepetitionData s)) itemId.

(** Successive reviews of one item, one quality score per review, all at
    the clock reading [now]; the result lists the item as it stands after
    each review. *)
Fixpoint review_all (itemId : string) (qualities : list number) (now : Z)
    (s : t) : list (option SpacedRepetitionItem) :=
  match qualities with
  | [] => []
  | q :: qs =>
      let s' := exec (updateSpacedRepetitionItem itemId q now) s in
      item_at s' itemId :: review_all itemId qs now s'
  end.

(** The achievements a call added. *)
Definition emitted (before after : t) : list Achievement :=
  skipn (List.length (achievements (progress before)))
        (achievements (progress after)).

(** The order of the list returned by the due-items query. *)
Definition review_before (a b : SpacedRepetitionItem) : Prop :=
  exists ta tb, next_review a = Some ta /\ next_review b = Some tb /\ ta <= tb.

(** An item is due at [now]. *)
Definition is_due (now : Z) (item : SpacedRepetitionItem) : Prop :=
  exists tr, next_review item = Some tr /\ tr <= now.


End ProgressTracker.

(* ================================================================== *)
(** ** ConversationManager *)

Module ConversationManager.

Import JS.

(** *** Collaborators reached through [fetch] *)

(** How an awaited [fetch] followed by [response.json()] ends: the fetch
    promise is rejected with an error message, or a response arrives with
    its status and the completion of parsing its body ([None] is a body
    that parses to [null]). *)
Inductive FetchOutcome (A : Type) : Type :=
| Rejected (message : string)
| Response (status : Z) (json : completion (option A)).
Arguments Rejected {A} message.

(** [response.ok]. *)
Definition ok (status : Z) : bool := (200 <=? status) && (status <=? 299).

(** Body of a reply of [/api/chat]; an absent property is [None]. *)
Record ChatData := {
  ai_response : option string;
  farsi_translation : option string;
  audio : option string
}.

(** Body of a reply of [/api/stt/start]. *)
Record SttStartData := {
  start_success : bool;
  start_recording : bool;
  start_message : option string
}.

(** Body of a reply of [/api/stt/stop]. *)
Record SttStopData := {
  stop_success : bool;
  stop_text : option string;
  stop_message : option string
}.

(** The requests the session issues, with the part of the body that
    depends on the session. *)
Inductive Request :=
| POST_chat_init_topic (topic : string)
| POST_chat (message : string) (history : list (string * string))
            (message_count duration_minutes : Z) (is_complete : bool)
| POST_stt_start
| POST_stt_stop
| POST_chat_session_end
| POST_progress (topic : option string) (duration_minutes message_count : Z).

(** *** State *)

Inductive Sender := user_sender | ai_sender.

Record Message := {
  sender : Sender;
  text : string;
  farsiTranslation : option string;
  timestamp : Z
}.

(** Texts shown in the status overlay by [showSystemStatus]. *)
Inductive StatusMessage :=
| StartingRecording
| RecordingActiveSpeakNow
| StartRecordingFailed (message : option string)
| StartRecordingError
| NoSpeechDetected
| StopRecordingFailed (message : option string)
| StopRecordingError
| WaitForRecordingActive.

Inductive StatusType := info | warning | error | success.

(** The fields of the manager, then the parts of the page it drives:
    the text input (its value, and whether it and the send and voice
    buttons are disabled), the typing indicator, the [recording-active]
    class of the body, the [listening] class and caption of the voice
    button, the status overlay, the leave-confirmation dialog, and
    finally the requests issued so far, oldest first.  The page is the
    application's own, on which the elements looked up by id exist.
    Speech playback through the voice manager is not part of the state. *)
Record t := {
  user : option string;
  currentTopic : option string;
  messages : list Message;
  isListening : bool;
  recordingActive : bool;
  isTutorTyping : bool;
  tutorHasGreeted : bool;
  conversationStartTime : option Z;
  conversationComplete : bool;
  messageCount : Z;
  input_value : string;
  input_disabled : bool;
  typing_indicator : bool;
  body_recording_active : bool;
  voice_btn_listening : bool;
  voice_text : string;
  system_status : option (StatusMessage * StatusType);
  leave_modal : bool;
  dashboard_shown : bool;
  requests : list Request
}.

(** [new ConversationManager(user, voiceManager)] on a fresh page. *)
Definition create (u : option string) : t :=
  {| user := u;
     currentTopic := None;
     messages := [];
     isListening := false;
     recordingActive := false;
     isTutorTyping := false;
     tutorHasGreeted := false;
     conversationStartTime := None;
     conversationComplete := false;
     messageCount := 0;
     input_value := EmptyString;
     input_disabled := false;
     typing_indicator := false;
     body_recording_active := false;
     voice_btn_listening := false;
     voice_text := "Tap to Speak";
     system_status := None;
     leave_modal := false;
     dashboard_shown := false;
     requests := [] |}.

(** Field updates. *)
Definition set_messages (v : list Message) (s : t) : t :=
  {| user := user s; currentTopic := currentTopic s; messages := v;
     isListening := isListening s; recordingActive := recordingActive s;
     isTutorTyping := isTutorTyping s; tutorHasGreeted := tutorHasGreeted s;
     conversationStartTime := conversationStartTime s;
     conversationComplete := conversationComplete s;
     messageCount := messageCount s; input_value := input_value s;
     input_disabled := input_disabled s;
     typing_indicator := typing_indicator s;
     body_recording_active := body_recording_active s;
     voice_btn_listening := voice_btn_listening s;
     voice_text := voice_text s; system_status := system_status s;
     leave_modal := leave_modal s; dashboard_shown := dashboard_shown s;
     requests := requests s |}.

Definition set_recording (listening active : bool) (s : t) : t :=
  {| user := user s; currentTopic := currentTopic s; messages := messages s;
     isListening := listening; recordingActive := active;
     isTutorTyping := isTutorTyping s; tutorHasGreeted := tutorHasGreeted s;
     conversationStartTime := conversationStartTime s;
     conversationComplete := conversationComplete s;
     messageCount := messageCount s; input_value := input_value s;
     input_disabled := input_disabled s;
     typing_indicator := typing_indicator s;
     body_recording_active := body_recording_active s;
     voice_btn_listening := voice_btn_listening s;
     voice_text := voice_text s; system_status := system_status s;
     leave_modal := leave_modal s; dashboard_shown := dashboard_shown s;
     requests := requests s |}.

Definition set_typing (typing indicator : bool) (s : t) : t :=
  {| user := user s; currentTopic := currentTopic s; messages := messages s;
     isListening := isListening s; recordingActive := recordingActive s;
     isTutorTyping := typing; tutorHasGreeted := tutorHasGreeted s;
     conversationStartTime := conversationStartTime s;
     conversationComplete := conversationComplete s;
     messageCount := messageCount s; input_value := input_value s;
     input_disabled := input_disabled s;
     typing_indicator := indicator;
     body_recording_active := body_recording_active s;
     voice_btn_listening := voice_btn_listening s;
     voice_text := voice_text s; system_status := system_status s;
     leave_modal := leave_modal s; dashboard_shown := dashboard_shown s;
     requests := requests s |}.

Definition set_tutorHasGreeted (v : bool) (s : t) : t :=
  {| user := user s; currentTopic := currentTopic s; messages := messages s;
     isListening := isListening s; recordingActive := recordingActive s;
     isTutorTyping := isTutorTyping s; tutorHasGreeted := v;
     conversationStartTime := conversationStartTime s;
     conversationComplete := conversationComplete s;
     messageCount := messageCount s; input_value := input_value s;
     input_disabled := input_disabled s;
     typing_indicator := typing_indicator s;
     body_recording_active := body_recording_active s;
     voice_btn_listening := voice_btn_listening s;
     voice_text := voice_text s; system_status := system_status s;
     leave_modal := leave_modal s; dashboard_shown := dashboard_shown s;
     requests := requests s |}.

Definition set_conversationComplete (v : bool) (s : t) : t :=
  {| user := user s; currentTopic := currentTopic s; messages := messages s;
     isListening := isListening s; recordingActive := recordingActive s;
     isTutorTyping := isTutorTyping s; tutorHasGreeted := tutorHasGreeted s;
     conversationStartTime := conversationStartTime s;
     conversationComplete := v;
     messageCount := messageCount s; input_value := input_value s;
     input_disabled := input_disabled s;
     typing_indicator := typing_indicator s;
     body_recording_active := body_recording_active s;
     voice_btn_listening := voice_btn_listening s;
     voice_text := voice_text s; system_status := system_status s;
     leave_modal := leave_modal s; dashboard_shown := dashboard_shown s;
     requests := requests s |}.

Definition set_messageCount (v : Z) (s : t) : t :=
  {| user := user s; currentTopic := currentTopic s; messages := messages s;
     isListening := isListening s; recordingActive := recordingActive s;
     isTutorTyping := isTutorTyping s; tutorHasGreeted := tutorHasGreeted s;
     conversationStartTime := conversationStartTime s;
     conversationComplete := conversationComplete s;
     messageCount := v; input_value := input_value s;
     input_disabled := input_disabled s;
     typing_indicator := typing_indicator s;
     body_recording_active := body_recording_active s;
     voice_btn_listening := voice_btn_listening s;
     voice_text := voice_text s; system_status := system_status s;
     leave_modal := leave_modal s; dashboard_shown := dashboard_shown s;
     requests := requests s |}.

Definition set_input_value (v : string) (s : t) : t :=
  {| user := user s; currentTopic := currentTopic s; messages := messages s;
     isListening := isListening s; recordingActive := recordingActive s;
     isTutorTyping := isTutorTyping s; tutorHasGreeted := tutorHasGreeted s;
     conversationStartTime := conversationStartTime s;
     conversationComplete := conversationComplete s;
     messageCount := messageCount s; input_value := v;
     input_disabled := input_disabled s;
     typing_indicator := typing_indicator s;
     body_recording_active := body_recording_active s;
     voice_btn_listening := voice_btn_listening s;
     voice_text := voice_text s; system_status := system_status s;
     leave_modal := leave_modal s; dashboard_shown := dashboard_shown s;
     requests := requests s |}.

Definition set_input_disabled (v : bool) (s : t) : t :=
  {| user := user s; currentTopic := currentTopic s; messages := messages s;
     isListening := isListening s; recordingActive := recordingActive s;
     isTutorTyping := isTutorTyping s; tutorHasGreeted := tutorHasGreeted s;
     conversationStartTime := conversationStartTime s;
     conversationComplete := conversationComplete s;
     messageCount := messageCount s; input_value := input_value s;
     input_disabled := v;
     typing_indicator := typing_indicator s;
     body_recording_active := body_recording_active s;
     voice_btn_listening := voice_btn_listening s;
     voice_text := voice_text s; system_status := system_status s;
     leave_modal := leave_modal s; dashboard_shown := dashboard_shown s;
     requests := requests s |}.

Definition set_recording_ui (locked listening : bool) (caption : string)
    (s : t) : t :=
  {| user := user s; currentTopic := currentTopic s; messages := messages s;
     isListening := isListening s; recordingActive := recordingActive s;
     isTutorTyping := isTutorTyping s; tutorHasGreeted := tutorHasGreeted s;
     conversationStartTime := conversationStartTime s;
     conversationComplete := conversationComplete s;
     messageCount := messageCount s; input_value := input_value s;
     input_disabled := input_disabled s;
     typing_indicator := typing_indicator s;
     body_recording_active := locked;
     voice_btn_listening := listening;
     voice_text := caption; system_status := system_status s;
     leave_modal := leave_modal s; dashboard_shown := dashboard_shown s;
     requests := requests s |}.

Definition set_voice_text (caption : string) (s : t) : t :=
  set_recording_ui (body_recording_active s) (voice_btn_listening s) caption s.

Definition set_system_status (v : option (StatusMessage * StatusType))
    (s : t) : t :=
  {| user := user s; currentTopic := currentTopic s; messages := messages s;
     isListening := isListening s; recordingActive := recordingActive s;
     isTutorTyping := isTutorTyping s; tutorHasGreeted := tutorHasGreeted s;
     conversationStartTime := conversationStartTime s;
     conversationComplete := conversationComplete s;
     messageCount := messageCount s; input_value := input_value s;
     input_disabled := input_disabled s;
     typing_indicator := typing_indicator s;
     body_recording_active := body_recording_active s;
     voice_btn_listening := voice_btn_listening s;
     voice_text := voice_text s; system_status := v;
     leave_modal := leave_modal s; dashboard_shown := dashboard_shown s;
     requests := requests s |}.

Definition set_navigation (modal dashboard : bool) (s : t) : t :=
  {| user := user s; currentTopic := currentTopic s; messages := messages s;
     isListening := isListening s; recordingActive := recordingActive s;
     isTutorTyping := isTutorTyping s; tutorHasGreeted := tutorHasGreeted s;
     conversationStartTime := conversationStartTime s;
     conversationComplete := conversationComplete s;
     messageCount := messageCount s; input_value := input_value s;
     input_disabled := input_disabled s;
     typing_indicator := typing_indicator s;
     body_recording_active := body_recording_active s;
     voice_btn_listening := voice_btn_listening s;
     voice_text := voice_text s; system_status := system_status s;
     leave_modal := modal; dashboard_shown := dashboard;
     requests := requests s |}.

Definition set_topic (topic : option string) (start : option Z) (s : t) : t :=
  {| user := user s; currentTopic := topic; messages := messages s;
     isListening := isListening s; recordingActive := recordingActive s;
     isTutorTyping := isTutorTyping s; tutorHasGreeted := tutorHasGreeted s;
     conversationStartTime := start;
     conversationComplete := conversationComplete s;
     messageCount := messageCount s; input_value := input_value s;
     input_disabled := input_disabled s;
     typing_indicator := typing_indicator s;
     body_recording_active := body_recording_active s;
     voice_btn_listening := voice_btn_listening s;
     voice_text := voice_text s; system_status := system_status s;
     leave_modal := leave_modal s; dashboard_shown := dashboard_shown s;
     requests := requests s |}.

(** [fetch(url, ...)]: the request leaves at once; its outcome is handed
    to the continuation of the caller when the promise settles. *)
Definition fetch (r : Request) (s : t) : t :=
  {| user := user s; currentTopic := currentTopic s; messages := messages s;
     isListening := isListening s; recordingActive := recordingActive s;
     isTutorTyping := isTutorTyping s; tutorHasGreeted := tutorHasGreeted s;
     conversationStartTime := conversationStartTime s;
     conversationComplete := conversationComplete s;
     messageCount := messageCount s; input_value := input_value s;
     input_disabled := input_disabled s;
     typing_indicator := typing_indicator s;
     body_recording_active := body_recording_active s;
     voice_btn_listening := voice_btn_listening s;
     voice_text := voice_text s; system_status := system_status s;
     leave_modal := leave_modal s; dashboard_shown := dashboard_shown s;
     requests := requests s ++ [r] |}.

(** *** Chat *)

(** [showSystemStatus(message, type, duration)]; the timer that hides the
    overlay again is not part of the state. *)
Definition showSystemStatus (m : StatusMessage) (ty : StatusType) (s : t) : t :=
  set_system_status (Some (m, ty)) s.

(** [addMessage(sender, text, farsiTranslation)]. *)
Definition addMessage (who : Sender) (txt : string) (tr : option string)
    (now : Z) (s : t) : t :=
  set_messages
    (messages s ++ [{| sender := who; text := txt; farsiTranslation := tr;
                       timestamp := now |}]) s.

(** [showTypingIndicator()] and [removeTypingIndicator()]. *)
Definition showTypingIndicator (s : t) : t := set_typing true true s.
Definition removeTypingIndicator (s : t) : t := set_typing false false s.

(** [setInputDisabled(disabled)]: the text input, the send button and the
    voice buttons together. *)
Definition setInputDisabled (disabled : bool) (s : t) : t :=
  set_input_disabled disabled s.

(** [clearMessages()]. *)
Definition clearMessages (s : t) : t := set_messages [] s.

Section TopicDetails.

(** [CONFIG.TOPIC_DETAILS[topicId].name], when the topic is listed. *)
Variable TOPIC_DETAILS_name : string -> option string.

(** [getTopicName(topicId)]. *)
Definition getTopicName (topicId : option string) : string :=
  match topicId with
  | Some k =>
      match TOPIC_DETAILS_name k with
      | Some name => name
      | None => "AI Conversation"
      end
  | None => "AI Conversation"
  end.

(** [showWelcomeMessage()]. *)
Definition showWelcomeMessage (now : Z) (s : t) : t :=
  let topicName := getTopicName (currentTopic s) in
  let welcomeMessage :=
    ("Welcome to " ++ topicName
     ++ "! Start practicing by typing a message or tapping the 🎤 button to speak.")%string in
  let s := addMessage ai_sender welcomeMessage None now s in
  let s := set_tutorHasGreeted true s in
  setInputDisabled false s.

(** [startConversation(topicId)], up to the request that initialises the
    topic context. *)
Definition startConversation (topicId : string) (now : Z) (s : t) : t :=
  let s := set_topic (Some topicId) (Some now) s in
  let s := set_conversationComplete false s in
  let s := set_tutorHasGreeted false s in
  let s := set_messageCount 0 s in
  let s := clearMessages s in
  let s := setInputDisabled true s in
  fetch (POST_chat_init_topic topicId) s.

(** [startConversation], once [initializeTopicContext] has settled: the
    result of the initialisation is not looked at. *)
Definition startConversation_resume (o : FetchOutcome unit) (now : Z)
    (s : t) : t :=
  showWelcomeMessage now s.

End TopicDetails.

(** The [history] and [conversation_context] sent by [sendToBackend]. *)
Definition history_entry (m : Message) : string * string :=
  (match sender m with user_sender => "user" | ai_sender => "assistant" end,
   text m)%string.

Definition last_ten {A} (l : list A) : list A :=
  skipn (List.length l - 10) l.

Definition chat_request (message : string) (now : Z) (s : t) : Request :=
  let conversationDuration :=
    now - match conversationStartTime s with Some t0 => t0 | None => 0 end in
  let minutes := conversationDuration / 60000 in
  POST_chat message (map history_entry (last_ten (messages s)))
            (messageCount s) minutes (conversationComplete s).

(** [sendMessage()], up to the request sent by [sendToBackend]. *)
Definition sendMessage (now : Z) (s : t) : t :=
  if isTutorTyping s || negb (tutorHasGreeted s) then s
  else
    let message := trim (input_value s) in
    if String.eqb message EmptyString then s
    else
      let s := set_input_value EmptyString s in
      let s := addMessage user_sender message None now s in
      let s := set_messageCount (messageCount s + 1) s in
      let s := showTypingIndicator s in
      let s := setInputDisabled true s in
      fetch (chat_request message now s) s.

(** [sendToBackend], once the fetch has settled: the parsed reply, or the
    error thrown to the caller. *)
Definition sendToBackend_resume (o : FetchOutcome ChatData)
    : completion (option ChatData) :=
  match o with
  | Rejected message => Throw message
  | Response status json =>
      if negb (ok status) then
        Throw ("HTTP error! status: " ++ toString status)
      else json
  end.

Definition truthy (x : option string) : option string :=
  match x with
  | Some EmptyString => None
  | _ => x
  end.

(** The reply shown to the user in the [catch] branch of [sendMessage]. *)
Definition failureMessage (errorMessage : string) : string :=
  if includes errorMessage "Failed to fetch" then
    "❌ Cannot connect to the AI service. Please make sure the backend server is running."
  else if includes errorMessage "HTTP error! status: 500" then
    "⚠️ Server error occurred. Please try again later."
  else
    "❌ Connection error. Please check your internet connection and try again.".

Definition congratsMessage : string :=
  "🎉 Excellent work! You've demonstrated great progress in this topic. Your lesson is now complete and your XP has been saved. You can safely leave the conversation.".

(** [showCompletionMessage()]. *)
Definition showCompletionMessage (now : Z) (s : t) : t :=
  addMessage ai_sender congratsMessage None now s.

(** [sendMessage], once [sendToBackend] has settled. *)
Definition sendMessage_resume (o : FetchOutcome ChatData) (now : Z)
    (s : t) : t :=
  match sendToBackend_resume o with
  | Normal response =>
      let s := removeTypingIndicator s in
      let s := setInputDisabled false s in
      match response with
      | Some data =>
          match truthy (ai_response data) with
          | Some reply =>
              let s := addMessage ai_sender reply (farsi_translation data) now s in
              if includes reply "LESSON_COMPLETE" then
                showCompletionMessage now (set_conversationComplete true s)
              else s
          | None =>
              addMessage ai_sender
                "I'm sorry, I couldn't process that. Please try again." None now s
          end
      | None =>
          addMessage ai_sender
            "I'm sorry, I couldn't process that. Please try again." None now s
      end
  | Throw errorMessage =>
      let s := removeTypingIndicator s in
      let s := setInputDisabled false s in
      addMessage ai_sender (failureMessage errorMessage) None now s
  end.

(** *** Voice recording *)

(** [stopVoiceInput()], up to the request that stops the recording. *)
Definition stopVoiceInput (s : t) : t :=
  if negb (isListening s) then s
  else fetch POST_stt_stop s.

(** [startVoiceInput()], up to the request that starts the recording. *)
Definition startVoiceInput (s : t) : t :=
  if isTutorTyping s || negb (tutorHasGreeted s) then s
  else if isListening s then s
  else
    let s := set_recording true false s in
    let s := set_recording_ui true true "Initialising..." s in
    let s := showSystemStatus StartingRecording info s in
    fetch POST_stt_start s.

(** [startVoiceInput], once the start request has settled. *)
Definition startVoiceInput_resume (o : FetchOutcome SttStartData) (s : t) : t :=
  match o with
  | Response _ (Normal (Some data)) =>
      if start_success data && start_recording data then
        let s := set_recording (isListening s) true s in
        let s := set_voice_text "Tap to Stop" s in
        showSystemStatus RecordingActiveSpeakNow success s
      else
        let s := showSystemStatus (StartRecordingFailed (truthy (start_message data)))
                                  error s in
        stopVoiceInput s
  | _ =>
      let s := showSystemStatus StartRecordingError error s in
      stopVoiceInput s
  end.

(** [s.toLowerCase()] on ASCII letters. *)
Definition lower (c : ascii) : ascii :=
  let n := nat_of_ascii c in
  if (Nat.leb 65 n && Nat.leb n 90)%bool then ascii_of_nat (n + 32) else c.

Fixpoint toLowerCase (s : string) : string :=
  match s with
  | EmptyString => EmptyString
  | String c s' => String (lower c) (toLowerCase s')
  end.

(** The [finally] block of [stopVoiceInput]. *)
Definition stopVoiceInput_finally (s : t) : t :=
  let s := set_recording false false s in
  set_recording_ui false false "Tap to Speak" s.

(** The [try] block of [stopVoiceInput] after the stop request has
    settled, the [catch] branch included. *)
Definition stopVoiceInput_try (o : FetchOutcome SttStopData) (now : Z)
    (s : t) : t :=
  match o with
  | Response _ (Normal (Some data)) =>
      let spoken :=
        match truthy (stop_text data) with
        | Some txt => truthy (Some (trim txt))
        | None => None
        end in
      match stop_success data, spoken with
      | true, Some txt =>
          if String.eqb txt "LEGAL" then
            showSystemStatus NoSpeechDetected warning s
          else
            let s := set_input_value txt s in
            sendMessage now s
      | true, None => showSystemStatus NoSpeechDetected warning s
      | false, _ =>
          match truthy (stop_message data) with
          | Some m =>
              if includes (toLowerCase m) "no recording in progress" then s
              else showSystemStatus (StopRecordingFailed (Some m)) error s
          | None => showSystemStatus (StopRecordingFailed None) error s
          end
      end
  | _ => showSystemStatus StopRecordingError error s
  end.

(** [stopVoiceInput], once the stop request has settled. *)
Definition stopVoiceInput_resume (o : FetchOutcome SttStopData) (now : Z)
    (s : t) : t :=
  stopVoiceInput_finally (stopVoiceInput_try o now s).

(** [toggleVoiceInput()]. *)
Definition toggleVoiceInput (s : t) : t :=
  if isTutorTyping s || negb (tutorHasGreeted s) then s
  else if isListening s then
    if negb (recordingActive s) then
      showSystemStatus WaitForRecordingActive warning s
    else stopVoiceInput s
  else startVoiceInput s.

(** *** Leaving the conversation *)

(** [goBackToDashboard(awardXP)]; the requests of [endChatSession] and
    [awardCompletionXP] leave without their replies being looked at. *)
Definition goBackToDashboard (awardXP : bool) (now : Z) (s : t) : t :=
  let s := stopVoiceInput s in
  let s := fetch POST_chat_session_end s in
  let s :=
    if awardXP && conversationComplete s
       && match user s with Some _ => true | None => false end
    then
      let conversationDuration :=
        now - match conversationStartTime s with Some t0 => t0 | None => 0 end in
      fetch (POST_progress (currentTopic s) (conversationDuration / 60000)
                           (messageCount s)) s
    else s in
  set_navigation (leave_modal s) true s.

(** [showLeaveConfirmation()] and [confirmLeave()]. *)
Definition showLeaveConfirmation (s : t) : t :=
  set_navigation true (dashboard_shown s) s.

Definition confirmLeave (now : Z) (s : t) : t :=
  let s := set_navigation false (dashboard_shown s) s in
  goBackToDashboard false now s.

(** [handleBackToDashboard()]. *)
Definition handleBackToDashboard (now : Z) (s : t) : t :=
  if conversationComplete s then goBackToDashboard true now s
  else showLeaveConfirmation s.

(** *** The session as an event-driven machine

    Between two awaits a method runs without interruption; what happens
    to the session is a sequence of user actions and of settled requests,
    each taken at some clock reading. *)
Inductive Event :=
| StartConversation (topicId : string)
| InitTopicSettled (o : FetchOutcome unit)
| TypeText (txt : string)
| ClickSend
| ChatSettled (o : FetchOutcome ChatData)
| TapVoiceButton
| SttStartSettled (o : FetchOutcome SttStartData)
| SttStopSettled (o : FetchOutcome SttStopData)
| ClickBack
| ClickLeave.

Section Machine.

Variable TOPIC_DETAILS_name : string -> option string.

Definition step (e : Event) (now : Z) (s : t) : t :=
  match e with
  | StartConversation topicId => startConversation topicId now s
  | InitTopicSettled o => startConversation_resume TOPIC_DETAILS_name o now s
  | TypeText txt => set_input_value txt s
  | ClickSend => sendMessage now s
  | ChatSettled o => sendMessage_resume o now s
  | TapVoiceButton => toggleVoiceInput s
  | SttStartSettled o => startVoiceInput_resume o s
  | SttStopSettled o => stopVoiceInput_resume o now s
  | ClickBack => handleBackToDashboard now s
  | ClickLeave => confirmLeave now s
  end.

Fixpoint run (events : list (Event * Z)) (s : t) : t :=
  match events with
  | [] => s
  | (e, now) :: events' => run events' (step e now s)
  end.

End Machine.

(** A chat request has failed when the fetch is rejected, the status is
    not a success status, or the body cannot be parsed. *)
Definition chat_failed (o : FetchOutcome ChatData) : Prop :=
  exists message, sendToBackend_resume o = Throw message.


End ConversationManager.

(* ================================================================== *)
(** ** Scenarios and auxiliary observations *)

Import JS ProgressTracker ConversationManager.

(** The tracker holding one freshly created item, and the key it is
    stored under. *)
Definition fresh_tracker : ProgressTracker.t :=
  exec (addSpacedRepetitionItem "Hello" "salam" "greetings" 1000)
       ProgressTracker.empty.

Definition fresh_key : string := "greetings_1000".

(** Intervals and ease factors along a run of reviews. *)
Definition intervals_of (l : list (option SpacedRepetitionItem)) : list (option number) :=
  map (option_map interval) l.

Definition ease_factors_of (l : list (option SpacedRepetitionItem)) : list (option number) :=
  map (option_map ease_factor) l.

(** The record a conversation leaves for its topic. *)
Definition after_conversation (existing : option TopicProgress) (now : Z)
    : TopicProgress :=
  match existing with
  | Some tp =>
      {| status := if Status_eqb (status tp) not_started then in_progress
                   else status tp;
         phrases_learned := phrases_learned tp;
         conversations_completed := conversations_completed tp + 1;
         last_practiced := Some now;
         completion_date := completion_date tp;
         practice_sessions := practice_sessions tp + 1 |}
  | None =>
      {| status := in_progress;
         phrases_learned := 0;
         conversations_completed := 1;
         last_practiced := Some now;
         completion_date := None;
         practice_sessions := 1 |}
  end.

(** The achievement pushed by [addAchievement] for a streak milestone. *)
Definition streak_achievement (type : string) (n now : Z) : Achievement :=
  {| achievement_id := toString now;
     achievement_type := type;
     achievement_data := streak_data n;
     earned_at := now |}.

(** A learner whose longest streak is 10 days and whose current streak is
    6 days, last continued on day 9. *)
Definition returning_learner : ProgressTracker.t :=
  with_streakData (fun _ =>
    {| current_streak := 6;
       longest_streak := 10;
       last_activity_date := Some (9 * msPerDay + 1000);
       streak_start_date := Some 4 |}) ProgressTracker.empty.

(** The topic names of the catalogue used in the examples. *)
Definition topic_names (topicId : string) : option string :=
  if String.eqb topicId "greetings" then Some "Greetings"%string else None.

(** A session in which the tutor has greeted and the learner has typed a
    message. *)
Definition greeted_session : ConversationManager.t :=
  run topic_names
    [(StartConversation "greetings"%string, 1000);
     (InitTopicSettled (Response 200 (Normal (Some tt))), 1500);
     (TypeText "  Hello there "%string, 9000)]
    (create (Some "u1"%string)).

(** The same session after a tap on the voice button, the start request
    still pending. *)
Definition starting_session : ConversationManager.t :=
  run topic_names [(TapVoiceButton, 9500)] greeted_session.

(** The replies of the speech service in the interleaving below. *)
Definition no_recording_reply : FetchOutcome SttStopData :=
  Response 200 (Normal (Some {| stop_success := false;
                                stop_text := None;
                                stop_message := Some "No recording in progress"%string |})).

Definition recording_started_reply : FetchOutcome SttStartData :=
  Response 200 (Normal (Some {| start_success := true;
                                start_recording := true;
                                start_message := None |})).

(** The learner leaves while the start request is pending; the stop
    request sent on leaving settles first, the start request after it. *)
Definition left_while_starting : ConversationManager.t :=
  run topic_names
    [(ClickBack, 9600);
     (ClickLeave, 9700);
     (SttStopSettled no_recording_reply, 9800);
     (SttStartSettled recording_started_reply, 9900)]
    starting_session.


(* ================================================================== *)
(** ** ProgressTracker: loading, initialisation and reports *)

Module ProgressTrackerMore.

Import JS ProgressTracker.
Local Open Scope tracker_scope.

(** The streak data [storage.get] falls back to when nothing is stored. *)
Definition default_streak_data : StreakData :=
  {| current_streak := 0;
     longest_streak := 0;
     last_activity_date := None;
     streak_start_date := None |}.

(** [loadStreakData()], from what is stored under [streak_data]. *)
Definition loadStreakData (stored : option StreakData) (now : Z) : StreakData :=
  let today := toDateString now in
  let streakData :=
    match stored with
    | Some sd => sd
    | None => default_streak_data
    end in
  match last_activity_date streakData with
  | Some la =>
      let yesterday := dayBefore now in
      if negb (toDateString la =? today)
         && negb (toDateString la =? toDateString yesterday)
      then
        {| current_streak := 0;
           longest_streak := longest_streak streakData;
           last_activity_date := last_activity_date streakData;
           streak_start_date := None |}
      else streakData
  | None => streakData
  end.

(** The record [initialiseLevelProgress] gives every topic. *)
Definition untouched_topic : TopicProgress :=
  {| status := not_started;
     phrases_learned := 0;
     conversations_completed := 0;
     last_practiced := None;
     completion_date := None;
     practice_sessions := 0 |}.

(** [initialiseLevelProgress(topics)]. *)
Definition initialiseLevelProgress (topics : list string) : object TopicProgress :=
  fold_left (fun levelProgress topicId => JS.set levelProgress topicId untouched_topic)
            topics [].

(** [initialiseProgress(user)], for the level of the user. *)
Definition initialiseProgress (userLevel : Z) : M unit :=
  let topics := CONFIG.LEVELS_topics userLevel in
  modify (with_progress (fun _ =>
    {| level := userLevel;
       topics_completed := [];
       topics_in_progress := [];
       progress_current_streak := 0;
       progress_longest_streak := 0;
       level_progress := initialiseLevelProgress topics;
       achievements := [];
       conversation_count := 0 |})).

(** [getTopicProgress(topicId)]. *)
Definition getTopicProgress (topicId : string) : M (option TopicProgress) :=
  gets (fun s => get (level_progress (progress s)) topicId).

(** The object returned by [getLevelProgress()]. *)
Record LevelProgress := {
  report_level : Z;
  report_completed : Z;
  report_total : Z;
  report_percentage : number
}.

(** [getLevelProgress()]. *)
Definition getLevelProgress : M LevelProgress :=
  gets (fun s =>
    let currentLevel := level (progress s) in
    let levelTopics := CONFIG.LEVELS_topics currentLevel in
    let completed :=
      Z.of_nat (List.length
                  (filter (fun topic => includes_topic levelTopics topic)
                          (topics_completed (progress s)))) in
    let total := Z.of_nat (List.length levelTopics) in
    {| report_level := currentLevel;
       report_completed := completed;
       report_total := total;
       report_percentage :=
         if 0 <? total then Math_round ((of_Z completed / of_Z total) * 100)%float
         else 0%float |}).

(** An entry of [progress.pronunciation_scores]. *)
Record PronunciationScore := {
  score : number;
  scored_phrase : string;
  scored_at : Z
}.

(** [arr.slice(-n)]. *)
Definition slice_last {A} (n : nat) (l : list A) : list A :=
  skipn (List.length l - n) l.

(** [updatePronunciationScore(score, phrase)], on the list of scores. *)
Definition updatePronunciationScore (sc : number) (phrase : string) (now : Z)
    (scores : list PronunciationScore) : list PronunciationScore :=
  let scores :=
    scores ++ [{| score := sc; scored_phrase := phrase; scored_at := now |}] in
  if (50 <? List.length scores)%nat then slice_last 50 scores else scores.

(** [getAveragePronunciationScore()]. *)
Definition getAveragePronunciationScore (scores : list PronunciationScore)
    : number :=
  match scores with
  | [] => 0%float
  | _ =>
      let sum := fold_left (fun total item => (total + score item)%float)
                           scores 0%float in
      Math_round (sum / of_Z (Z.of_nat (List.length scores)))%float
  end.

(** Activity recorded at each of the given times, in order. *)
Fixpoint record_activities (times : list Z) (s : ProgressTracker.t)
    : ProgressTracker.t :=
  match times with
  | [] => s
  | now :: times' => record_activities times' (exec (updateActivityStreak now) s)
  end.

(** Each time falls on the day of the one before or on the day after. *)
Fixpoint day_by_day (day : Z) (times : list Z) : Prop :=
  match times with
  | [] => True
  | now :: times' =>
      (toDateString now = day \/ toDateString now = day + 1)
      /\ day_by_day (toDateString now) times'
  end.

(** The streak counters are in order. *)
Definition streak_ok (sd : StreakData) : Prop :=
  0 <= current_streak sd <= longest_streak sd.

(** The list of completed topics agrees with the topic records. *)
Definition completed_list_ok (s : ProgressTracker.t) : Prop :=
  NoDup (topics_completed (progress s))
  /\ forall topicId,
       In topicId (topics_completed (progress s))
       <-> topic_status s topicId = Some completed.

(** The achievements pushed for a topic and for a level. *)
Definition topic_achievement (topicId : string) (now : Z) : Achievement :=
  {| achievement_id := toString now;
     achievement_type := "topic_completed";
     achievement_data := topic_data topicId now;
     earned_at := now |}.

Definition level_achievement (lvl now : Z) : Achievement :=
  {| achievement_id := toString now;
     achievement_type := "level_completed";
     achievement_data := level_data lvl now;
     earned_at := now |}.

End ProgressTrackerMore.

(* ================================================================== *)
(** ** ConversationManager: observations on the session *)

Module ConversationManagerMore.

Import JS ConversationManager.

(** The number of messages of the learner in the log. *)
Definition is_user_message (m : Message) : bool :=
  match sender m with
  | user_sender => true
  | ai_sender => false
  end.

Definition user_messages (s : ConversationManager.t) : Z :=
  Z.of_nat (List.length (filter is_user_message (messages s))).

(** The page lock and the listening mark of the voice button follow
    [isListening]. *)
Definition lock_follows_listening (s : ConversationManager.t) : Prop :=
  body_recording_active s = isListening s
  /\ voice_btn_listening s = isListening s.

(** The message counter agrees with the log. *)
Definition count_matches_log (s : ConversationManager.t) : Prop :=
  messageCount s = user_messages s.

(** The start request was answered with a started recording. *)
Definition recording_started (o : FetchOutcome SttStartData) : bool :=
  match o with
  | Response _ (Normal (Some data)) => start_success data && start_recording data
  | _ => false
  end.

(** The requests a step issued. *)
Definition issued (before after : ConversationManager.t) : list Request :=
  skipn (List.length (requests before)) (requests after).

(** The event starts a conversation. *)
Definition starts_conversation (e : Event) : bool :=
  match e with
  | StartConversation _ => true
  | _ => false
  end.

(** The string does not begin with white space. *)
Definition starts_clean (s : string) : Prop :=
  match s with
  | EmptyString => True
  | String c _ => is_space c = false
  end.

(** The three replies of the [catch] branch of [sendMessage]. *)
Definition cannot_connect_reply : string :=
  "❌ Cannot connect to the AI service. Please make sure the backend server is running.".

Definition server_error_reply : string :=
  "⚠️ Server error occurred. Please try again later.".

Definition connection_error_reply : string :=
  "❌ Connection error. Please check your internet connection and try again.".

End ConversationManagerMore.

(* ================================================================== *)
(** ** TopicsManager (frontend/js/topics.js) *)

Module TopicsManager.

Import JS.

(** An entry of [key_phrases] in [CONFIG.TOPIC_DETAILS]; the properties
    used for display only are left out. *)
Record KeyPhrase := {
  key_english : string;
  key_farsi : string
}.

(** A phrase as [getTopicPhrases] returns it. *)
Record Phrase := {
  phrase_id : string;
  english : string;
  farsi : string
}.

(** The manager: the id and phrases of the current topic object, and the
    position in the phrases. *)
Record t := {
  currentTopic : option string;
  currentPhrases : list Phrase;
  currentPhraseIndex : Z
}.

(** [new TopicsManager()]. *)
Definition create : t :=
  {| currentTopic := None; currentPhrases := []; currentPhraseIndex := 0 |}.

(** The manager together with the global [progressTracker]. *)
Record World := {
  manager : t;
  tracker : ProgressTracker.t
}.

Section Catalogue.

(** [CONFIG.TOPIC_DETAILS[topicId]]: absent, or present with or without
    [key_phrases]. *)
Variable TOPIC_DETAILS : string -> option (option (list KeyPhrase)).

Fixpoint number_phrases (topicId : string) (index : Z) (l : list KeyPhrase)
    : list Phrase :=
  match l with
  | [] => []
  | p :: l' =>
      {| phrase_id := (topicId ++ "_phrase_" ++ toString index)%string;
         english := key_english p;
         farsi := key_farsi p |}
      :: number_phrases topicId (index + 1) l'
  end.

(** [getTopicPhrases(topicId)]. *)
Definition getTopicPhrases (topicId : string) : list Phrase :=
  match TOPIC_DETAILS topicId with
  | Some (Some key_phrases) => number_phrases topicId 0 key_phrases
  | _ => []
  end.

(** [startTopic(topicId)]. *)
Definition startTopic (topicId : string) (now : Z) (w : World) : bool * World :=
  match TOPIC_DETAILS topicId with
  | None => (false, w)
  | Some _ =>
      (true,
       {| manager := {| currentTopic := Some topicId;
                        currentPhrases := getTopicPhrases topicId;
                        currentPhraseIndex := 0 |};
          tracker :=
            ProgressTracker.exec
              (ProgressTracker.updateConversationProgress topicId now)
              (tracker w) |})
  end.

End Catalogue.

(** [getCurrentPhrase()]. *)
Definition getCurrentPhrase (m : t) : option Phrase :=
  if Z.of_nat (List.length (currentPhrases m)) <=? currentPhraseIndex m then None
  else if currentPhraseIndex m <? 0 then None
  else nth_error (currentPhrases m) (Z.to_nat (currentPhraseIndex m)).

Definition set_index (i : Z) (m : t) : t :=
  {| currentTopic := currentTopic m;
     currentPhrases := currentPhrases m;
     currentPhraseIndex := i |}.

(** [completeTopic()] of the manager. *)
Definition completeTopic (now : Z) (w : World) : World :=
  match currentTopic (manager w) with
  | None => w
  | Some topicId =>
      {| manager := manager w;
         tracker :=
           ProgressTracker.exec (ProgressTracker.completeTopic topicId now)
                                (tracker w) |}
  end.

(** [nextPhrase()]. *)
Definition nextPhrase (now : Z) (w : World) : option Phrase * World :=
  let m := manager w in
  if currentPhraseIndex m <? Z.of_nat (List.length (currentPhrases m)) - 1 then
    let m' := set_index (currentPhraseIndex m + 1) m in
    (getCurrentPhrase m', {| manager := m'; tracker := tracker w |})
  else (None, completeTopic now w).

(** [previousPhrase()]. *)
Definition previousPhrase (w : World) : option Phrase * World :=
  let m := manager w in
  if 0 <? currentPhraseIndex m then
    let m' := set_index (currentPhraseIndex m - 1) m in
    (getCurrentPhrase m', {| manager := m'; tracker := tracker w |})
  else (None, w).

(** [resetCurrentTopic()]. *)
Definition resetCurrentTopic (w : World) : World :=
  {| manager := create; tracker := tracker w |}.

(** [calculatePracticeTime(reviewCount, continueCount, newCount)]. *)
Definition calculatePracticeTime (reviewCount continueCount newCount : Z) : Z :=
  let reviewTime := reviewCount * 1 in
  let continueTime := continueCount * 8 in
  let newTime := newCount * 15 in
  reviewTime + continueTime + newTime.

(** [nextPhrase()] called again and again. *)
Fixpoint nextPhrase_times (n : nat) (now : Z) (w : World) : World :=
  match n with
  | O => w
  | S n' => nextPhrase_times n' now (snd (nextPhrase now w))
  end.

(** The position is on a phrase, or at 0 when there is none. *)
Definition index_ok (m : t) : Prop :=
  0 <= currentPhraseIndex m
  /\ (currentPhraseIndex m < Z.of_nat (List.length (currentPhrases m))
      \/ (currentPhrases m = [] /\ currentPhraseIndex m = 0)).

End TopicsManager.

(* ================================================================== *)
(** * Properties *)

Unset Implicit Arguments.

(** ** Numbers and dates *)

(** [Math.round] rounds ties upwards, also below zero, and the largest
    Number below one half goes to zero. *)
Lemma Math_round_examples :
  map JS.Math_round
      [2.5; -2.5; 16.2; 44.8; 130.50000000000003; 0.49999999999999994; -7.6]%float
  = [3; -2; 16; 45; 131; 0; -8]%float.
Proof. vm_compute. reflexivity. Qed.

(** A time value outside the range of dates gives an Invalid Date, which
    is never due. *)
Lemma new_Date_examples :
  JS.new_Date (JS.getTime 1000 + 1 * 24 * 60 * 60 * 1000)%float = Some 86401000
  /\ JS.new_Date 1e300%float = None
  /\ JS.new_Date nan = None
  /\ JS.date_le None (Some 0) = false.
Proof. vm_compute. repeat split; reflexivity. Qed.

(** ** Objects and sorting *)

Section ObjectFacts.

Variable V : Type.

Lemma get_set_same (o : JS.object V) (k : string) (v : V) :
  JS.get (JS.set o k v) k = Some v.
Proof.
  induction o as [|[k' v'] o IH]; simpl.
  - now rewrite String.eqb_refl.
  - destruct (String.eqb k' k) eqn:E; simpl; rewrite E; auto.
Qed.

Lemma get_set_other (o : JS.object V) (k k' : string) (v : V) :
  k <> k' -> JS.get (JS.set o k v) k' = JS.get o k'.
Proof.
  intros Hne.
  induction o as [|[k0 v0] o IH]; simpl.
  - destruct (String.eqb k k') eqn:E; auto.
    apply String.eqb_eq in E. contradiction.
  - destruct (String.eqb k0 k) eqn:E; simpl.
    + apply String.eqb_eq in E. subst k0.
      destruct (String.eqb k k') eqn:E'; auto.
      apply String.eqb_eq in E'. contradiction.
    + now rewrite IH.
Qed.

End ObjectFacts.

Section SortFacts.

Variable A : Type.
Variable cmp : A -> A -> comparison.

Lemma sort_insert_perm (x : A) (l : list A) :
  Permutation (JS.sort_insert cmp x l) (x :: l).
Proof.
  induction l as [|y l IH]; simpl; auto.
  destruct (cmp x y); auto.
  rewrite IH. apply perm_swap.
Qed.

Lemma sort_perm (l : list A) : Permutation (JS.sort cmp l) l.
Proof.
  induction l as [|x l IH]; simpl; auto.
  rewrite sort_insert_perm. now constructor.
Qed.

(** The comparator agrees with a preorder [le] on the elements that
    satisfy [P]. *)
Variable P : A -> Prop.
Variable le : A -> A -> Prop.
Hypothesis le_trans : forall a b c, le a b -> le b c -> le a c.
Hypothesis cmp_not_gt : forall a b, P a -> P b -> cmp a b <> Gt -> le a b.
Hypothesis cmp_gt : forall a b, P a -> P b -> cmp a b = Gt -> le b a.

Lemma sort_insert_sorted (x : A) (l : list A) :
  P x -> Forall P l -> StronglySorted le l ->
  StronglySorted le (JS.sort_insert cmp x l).
Proof.
  intros Px Pl Hs.
  induction Hs as [|y l Hs IH Hy]; simpl.
  - repeat constructor.
  - inversion Pl as [|? ? Py Pl']; subst.
    destruct (cmp x y) eqn:E.
    + constructor; [now constructor|].
      assert (Hxy : le x y) by (apply cmp_not_gt; auto; congruence).
      constructor; auto.
      eapply Forall_impl; [|exact Hy]. intros; eauto.
    + constructor; [now constructor|].
      assert (Hxy : le x y) by (apply cmp_not_gt; auto; congruence).
      constructor; auto.
      eapply Forall_impl; [|exact Hy]. intros; eauto.
    + constructor; auto.
      eapply Permutation_Forall.
      * symmetry. apply sort_insert_perm.
      * constructor; auto.
Qed.

Lemma sort_sorted (l : list A) :
  Forall P l -> StronglySorted le (JS.sort cmp l).
Proof.
  induction l as [|x l IH]; intros Hl; simpl.
  - constructor.
  - inversion Hl; subst.
    apply sort_insert_sorted; auto.
    eapply Permutation_Forall; [symmetry; apply sort_perm|]; auto.
Qed.

End SortFacts.

(** ** Spaced repetition *)

Lemma fresh_item_fields :
  option_map (fun i => (interval i, repetitions i, ease_factor i))
             (item_at fresh_tracker fresh_key)
  = Some (1, 0, 2.5)%float.
Proof. vm_compute. reflexivity. Qed.

(** Claim C1, as stated, fails: on a fresh item reviewed four times with
    quality 5 the third interval is 16, so the interval sequence is not of
    the form [1, 6, 15, _]. *)
Lemma C1_third_interval_is_not_15 :
  ~ exists x,
      intervals_of (review_all fresh_key [5; 5; 5; 5]%float 2000 fresh_tracker)
      = [Some 1; Some 6; Some 15; x]%float.
Proof.
  intros [x H]. vm_compute in H. discriminate H.
Qed.

(** Claim C1 (amended): on a fresh item (interval 1, repetitions 0,
    ease_factor 2.5), four successive reviews with quality 5 give the
    intervals 1, 6, round(6 x 2.7) = 16 and round(16 x 2.8) = 45, the
    multiplier being the ease factor as raised by the earlier reviews;
    after every review the ease factor is
    max(1.3, previous + (0.1 - (5 - 5) x (0.08 + (5 - 5) x 0.02))). *)
Theorem C1_scenario_A :
  let run := review_all fresh_key [5; 5; 5; 5]%float 2000 fresh_tracker in
  let next (e : number) :=
    Math_max 1.3%float (e + (0.1 - (5 - 5) * (0.08 + (5 - 5) * 0.02)))%float in
  let e1 := next 2.5%float in
  let e2 := next e1 in
  let e3 := next e2 in
  let e4 := next e3 in
  intervals_of run
  = [Some 1; Some 6; Some (Math_round (6 * e2)); Some (Math_round (16 * e3))]%float
  /\ intervals_of run = [Some 1; Some 6; Some 16; Some 45]%float
  /\ ease_factors_of run = [Some e1; Some e2; Some e3; Some e4].
Proof.
  vm_compute. repeat split; reflexivity.
Qed.

(** Claim C2 fails on the code: the interval is not clamped to
    MAX_INTERVAL.  Six successive reviews with quality 5 of a fresh item
    leave it with an interval of 393 days, above 365. *)
Theorem C2_interval_exceeds_MAX_INTERVAL :
  let run := review_all fresh_key [5; 5; 5; 5; 5; 5]%float 2000 fresh_tracker in
  intervals_of run
  = [Some 1; Some 6; Some 16; Some 45; Some 131; Some 393]%float
  /\ PrimFloat.ltb CONFIG.SPACED_REPETITION.MAX_INTERVAL 393%float = true
  /\ PrimFloat.leb 0%float 5%float = true /\ PrimFloat.leb 5%float 5%float = true.
Proof.
  vm_compute. repeat split; reflexivity.
Qed.

(** Comparisons of a score with the constants of the SM-2 branch. *)
Lemma below_zero_is_below_three (q : number) :
  PrimFloat.ltb q 0%float = true -> PrimFloat.leb 3%float q = false.
Proof.
  rewrite ltb_spec, leb_spec.
  change (Prim2SF 0%float) with (S754_zero false).
  change (Prim2SF 3%float) with (S754_finite false 6755399441055744 (-51)).
  destruct (Prim2SF q) as [[]|[]| |[] m e];
    unfold SFltb, SFleb, SFcompare; intros H; try discriminate H; reflexivity.
Qed.

Lemma above_five_is_above_three (q : number) :
  PrimFloat.ltb 5%float q = true -> PrimFloat.leb 3%float q = true.
Proof.
  rewrite ltb_spec, leb_spec.
  change (Prim2SF 5%float) with (S754_finite false 5629499534213120 (-50)).
  change (Prim2SF 3%float) with (S754_finite false 6755399441055744 (-51)).
  destruct (Prim2SF q) as [[]|[]| |[] m e];
    unfold SFltb, SFleb, SFcompare; intros H; try discriminate H;
    try reflexivity.
  destruct (Z.compare_spec (-50) e) as [E|E|E];
    destruct (Z.compare_spec (-51) e) as [E'|E'|E'];
    try lia; try reflexivity; discriminate H.
Qed.

(** What a review does to the store. *)
Lemma updateSpacedRepetitionItem_found (s : ProgressTracker.t)
    (itemId : string) (item : SpacedRepetitionItem) (quality : number) (now : Z) :
  item_at s itemId = Some item ->
  updateSpacedRepetitionItem itemId quality now s
  = (Normal tt,
     with_items (fun o => JS.set o itemId (review quality now item)) s).
Proof.
  unfold item_at, updateSpacedRepetitionItem, bind, gets, modify.
  intros H. now rewrite H.
Qed.

Lemma updateSpacedRepetitionItem_missing (s : ProgressTracker.t)
    (itemId : string) (quality : number) (now : Z) :
  item_at s itemId = None ->
  updateSpacedRepetitionItem itemId quality now s = (Normal tt, s).
Proof.
  unfold item_at, updateSpacedRepetitionItem, bind, gets, ret.
  intros H. now rewrite H.
Qed.

Lemma completeTopic_missing (s : ProgressTracker.t) (topicId : string) (now : Z) :
  get (level_progress (progress s)) topicId = None ->
  completeTopic topicId now s = (Normal tt, s).
Proof.
  unfold completeTopic, bind, gets, ret.
  intros H. now rewrite H.
Qed.

(** Claim C5, as stated, fails: a review with quality 7 of a fresh item
    ends normally, not with an error, and rewrites the item. *)
Lemma C5_quality_7_is_accepted :
  PrimFloat.ltb 5%float 7%float = true
  /\ outcome (updateSpacedRepetitionItem fresh_key 7%float 2000) fresh_tracker
     = Normal tt
  /\ option_map
       (fun i => (interval i, repetitions i, ease_factor i, next_review i,
                  last_reviewed i))
       (item_at fresh_tracker fresh_key)
     = Some (1%float, 0%float, 2.5%float, Some 86401000, None)
  /\ option_map
       (fun i => (interval i, repetitions i, ease_factor i, next_review i,
                  last_reviewed i))
       (item_at (exec (updateSpacedRepetitionItem fresh_key 7%float 2000) fresh_tracker)
                fresh_key)
     = Some (1%float, 1%float, 2.6800000000000002%float, Some 86402000, Some 2000).
Proof.
  vm_compute. repeat split; reflexivity.
Qed.

(** Claim C5 (amended): a quality score outside [0,5] is not rejected.
    The review ends normally and performs the ordinary update with that
    score: the ease factor becomes
    max(MIN_FACTOR, ease_factor + (0.1 - (5 - q) x (0.08 + (5 - q) x 0.02))),
    [last_reviewed] becomes the time of the review, a score below 0 counts
    as a failed review (repetitions 0, interval 1) and a score above 5 as
    a successful one (repetitions incremented). *)
Theorem C5_out_of_range_quality_is_accepted (s : ProgressTracker.t)
    (itemId : string) (item : SpacedRepetitionItem) (quality : number)
    (now : Z) :
  item_at s itemId = Some item ->
  PrimFloat.ltb quality 0%float = true \/ PrimFloat.ltb 5%float quality = true ->
  let call := updateSpacedRepetitionItem itemId quality now in
  outcome call s = Normal tt
  /\ exists item',
       item_at (exec call s) itemId = Some item'
       /\ last_reviewed item' = Some now
       /\ ease_factor item'
          = Math_max CONFIG.SPACED_REPETITION.MIN_FACTOR
              (ease_factor item
               + (0.1 - (5 - quality) * (0.08 + (5 - quality) * 0.02)))%float
       /\ next_review item'
          = new_Date (getTime now + interval item' * 24 * 60 * 60 * 1000)%float
       /\ (PrimFloat.ltb quality 0%float = true ->
           interval item' = 1%float /\ repetitions item' = 0%float)
       /\ (PrimFloat.ltb 5%float quality = true ->
           repetitions item' = (repetitions item + 1)%float).
Proof.
  intros Hitem _ call. unfold call, outcome, exec.
  rewrite (updateSpacedRepetitionItem_found _ _ _ quality now Hitem). simpl.
  split; [reflexivity|].
  exists (review quality now item).
  split; [unfold item_at; simpl; apply get_set_same|].
  assert (Hlow : PrimFloat.ltb quality 0%float = true ->
                 sm2_interval quality item = (1%float, 0%float)).
  { intros Hq. unfold sm2_interval.
    now rewrite (below_zero_is_below_three _ Hq). }
  assert (Hhigh : PrimFloat.ltb 5%float quality = true ->
                  snd (sm2_interval quality item) = (repetitions item + 1)%float).
  { intros Hq. unfold sm2_interval.
    rewrite (above_five_is_above_three _ Hq).
    destruct (PrimFloat.eqb (repetitions item + 1)%float 1%float);
      [|destruct (PrimFloat.eqb (repetitions item + 1)%float 2%float)];
      reflexivity. }
  unfold review.
  destruct (sm2_interval quality item) as [interval' repetitions'] eqn:E.
  simpl in *.
  split; [reflexivity|].
  split; [reflexivity|].
  split; [reflexivity|].
  split.
  - intros Hq. specialize (Hlow Hq). injection Hlow as -> ->. now split.
  - exact Hhigh.
Qed.

Lemma C5_out_of_range_quality_is_accepted_witness :
  let call := updateSpacedRepetitionItem fresh_key (-1)%float 2000 in
  outcome call fresh_tracker = Normal tt
  /\ exists item',
       item_at (exec call fresh_tracker) fresh_key = Some item'
       /\ last_reviewed item' = Some 2000
       /\ ease_factor item'
          = Math_max CONFIG.SPACED_REPETITION.MIN_FACTOR
              (2.5 + (0.1 - (5 - (-1)) * (0.08 + (5 - (-1)) * 0.02)))%float
       /\ next_review item'
          = new_Date (getTime 2000 + interval item' * 24 * 60 * 60 * 1000)%float
       /\ (PrimFloat.ltb (-1)%float 0%float = true ->
           interval item' = 1%float /\ repetitions item' = 0%float)
       /\ (PrimFloat.ltb 5%float (-1)%float = true ->
           repetitions item' = (0 + 1)%float).
Proof.
  refine (C5_out_of_range_quality_is_accepted fresh_tracker fresh_key
            (Build_SpacedRepetitionItem "greetings_1000" "Hello" "salam"
               "greetings" 1%float 0%float 2.5%float (Some 86401000) 1000 None)
            (-1)%float 2000 _ _).
  - vm_compute. reflexivity.
  - left. vm_compute. reflexivity.
Defined.



(** The due-items query. *)
Lemma date_le_is_due (now : Z) (item : SpacedRepetitionItem) :
  date_le (next_review item) (Some now) = true <-> is_due now item.
Proof.
  unfold date_le, is_due. destruct (next_review item) as [tr|].
  - rewrite Z.leb_le. split.
    + intros H. exists tr. auto.
    + intros [tr' [E H]]. congruence.
  - split; [discriminate|]. intros [tr [E _]]. discriminate.
Qed.

(** Claim C3: for every store and every time [now], the due-items query
    ends normally with exactly the stored items whose [next_review] is at
    most [now] (each as often as it is stored, in particular an item is
    returned if and only if it is stored and due), sorted ascending by
    [next_review]; it leaves the tracker unchanged, so a second call with
    the same [now] returns the same list. *)
Theorem C3_due_items (s : ProgressTracker.t) (now : Z) :
  let stored := Object_values (items (spacedRepetitionData s)) in
  exists due,
    getDueSpacedRepetitionItems now s = (Normal due, s)
    /\ Permutation due
         (filter (fun item => date_le (next_review item) (Some now)) stored)
    /\ (forall item, In item due <-> In item stored /\ is_due now item)
    /\ StronglySorted review_before due
    /\ getDueSpacedRepetitionItems now
         (exec (getDueSpacedRepetitionItems now) s)
       = (Normal due, s).
Proof.
  intros stored.
  set (due := filter (fun item => date_le (next_review item) (Some now)) stored).
  set (cmp := fun a b : SpacedRepetitionItem =>
                date_diff_sign (next_review a) (next_review b)).
  exists (JS.sort cmp due).
  assert (Hcall : getDueSpacedRepetitionItems now s = (Normal (JS.sort cmp due), s))
    by reflexivity.
  split; [exact Hcall|].
  split; [apply sort_perm|].
  split.
  - intros item. rewrite <- date_le_is_due.
    rewrite <- (filter_In (fun i => date_le (next_review i) (Some now))).
    fold due. split; apply Permutation_in.
    + apply sort_perm.
    + symmetry. apply sort_perm.
  - split.
    + apply (sort_sorted _ cmp (is_due now)).
      * intros a b c [ta [tb [Ea [Eb Hab]]]] [tb' [tc [Eb' [Ec Hbc]]]].
        exists ta, tc. repeat split; auto. rewrite Eb in Eb'.
        injection Eb' as <-. lia.
      * intros a b [ta [Ea _]] [tb [Eb _]] Hc. exists ta, tb.
        repeat split; auto. unfold cmp in Hc. rewrite Ea, Eb in Hc.
        simpl in Hc. apply Z.compare_le_iff in Hc. exact Hc.
      * intros a b [ta [Ea _]] [tb [Eb _]] Hc. exists tb, ta.
        repeat split; auto. unfold cmp in Hc. rewrite Ea, Eb in Hc.
        simpl in Hc. apply Z.compare_gt_iff in Hc. lia.
      * apply Forall_forall. intros item Hin. apply date_le_is_due.
        unfold due in Hin. apply filter_In in Hin. tauto.
    + unfold exec. rewrite Hcall. simpl. exact Hcall.
Qed.

(** ** Topic status *)

(** Case analysis on the tests of a method body. *)
Ltac break_tests :=
  repeat match goal with
         | |- context [match ?x with Some _ => _ | None => _ end] =>
             destruct x eqn:?
         | |- context [if ?c then _ else _] => destruct c eqn:?
         end.

Lemma updateActivityStreak_keeps_topics (now : Z) (s : ProgressTracker.t) :
  outcome (updateActivityStreak now) s = Normal tt
  /\ level_progress (progress (exec (updateActivityStreak now) s))
     = level_progress (progress s).
Proof.
  unfold outcome, exec, updateActivityStreak, addAchievement, bind, gets,
    modify, ret.
  simpl. break_tests; simpl; split; reflexivity.
Qed.

Lemma checkLevelCompletion_keeps_topics (now : Z) (s : ProgressTracker.t) :
  outcome (checkLevelCompletion now) s = Normal tt
  /\ level_progress (progress (exec (checkLevelCompletion now) s))
     = level_progress (progress s).
Proof.
  unfold outcome, exec, checkLevelCompletion, addAchievement, bind, gets,
    modify, ret.
  simpl. break_tests; simpl; split; reflexivity.
Qed.

Lemma updateConversationProgress_topics (topicId : string) (now : Z)
    (s : ProgressTracker.t) :
  outcome (updateConversationProgress topicId now) s = Normal tt
  /\ level_progress (progress (exec (updateConversationProgress topicId now) s))
     = JS.set (level_progress (progress s)) topicId
         (after_conversation (get (level_progress (progress s)) topicId) now).
Proof.
  unfold outcome, exec, updateConversationProgress, bind, gets, modify, ret.
  destruct (get (level_progress (progress s)) topicId) as [tp|]; simpl;
    [destruct (Status_eqb (status tp) not_started)|]; simpl;
    match goal with
    | |- context [updateActivityStreak now ?s1] =>
        destruct (updateActivityStreak_keeps_topics now s1) as [Ho Hl];
        unfold outcome, exec in Ho, Hl;
        destruct (updateActivityStreak now s1) as [c s2]; simpl in *;
        subst c; split; [reflexivity|exact Hl]
    end.
Qed.

Lemma completeTopic_topics (topicId : string) (now : Z) (s : ProgressTracker.t) :
  outcome (completeTopic topicId now) s = Normal tt
  /\ level_progress (progress (exec (completeTopic topicId now) s))
     = match get (level_progress (progress s)) topicId with
       | None => level_progress (progress s)
       | Some tp =>
           JS.set (level_progress (progress s)) topicId
             {| status := completed;
                phrases_learned := phrases_learned tp;
                conversations_completed := conversations_completed tp;
                last_practiced := last_practiced tp;
                completion_date := Some now;
                practice_sessions := practice_sessions tp |}
       end.
Proof.
  unfold outcome, exec, completeTopic, addAchievement, bind, gets, modify, ret.
  destruct (get (level_progress (progress s)) topicId) as [tp|]; simpl;
    [|split; reflexivity].
  match goal with
  | |- context [checkLevelCompletion now ?s1] =>
      destruct (checkLevelCompletion_keeps_topics now s1) as [Ho Hl];
      unfold outcome, exec in Ho, Hl;
      destruct (checkLevelCompletion now s1) as [c s2]; simpl in *;
      subst c; split; [reflexivity|]
  end.
  rewrite Hl.
  destruct (includes_topic (topics_completed (progress s)) topicId); reflexivity.
Qed.

Lemma status_rank_le_2 (st : Status) : (status_rank st <= 2)%nat.
Proof. destruct st; simpl; lia. Qed.

Lemma topic_rank_set (s s' : ProgressTracker.t) (k topicId : string)
    (tp : TopicProgress) :
  level_progress (progress s')
  = JS.set (level_progress (progress s)) k tp ->
  topic_rank s' topicId
  = if String.eqb k topicId then status_rank (status tp)
    else topic_rank s topicId.
Proof.
  intros H. unfold topic_rank, topic_status. rewrite H.
  destruct (String.eqb_spec k topicId) as [->|Hne].
  - now rewrite get_set_same.
  - now rewrite get_set_other.
Qed.

(** One operation never moves a topic backwards. *)
Lemma apply_op_monotone (op : TopicOp) (s : ProgressTracker.t)
    (topicId : string) :
  (topic_rank s topicId <= topic_rank (exec (apply_op op) s) topicId)%nat.
Proof.
  destruct op as [k now|k now]; simpl.
  - destruct (updateConversationProgress_topics k now s) as [_ Hl].
    rewrite (topic_rank_set _ _ _ topicId _ Hl).
    destruct (String.eqb_spec k topicId) as [->|Hne]; [|lia].
    unfold topic_rank, topic_status, after_conversation.
    destruct (get (level_progress (progress s)) topicId) as [tp|]; simpl;
      [|lia].
    destruct (status tp); simpl; lia.
  - destruct (completeTopic_topics k now s) as [_ Hl].
    destruct (get (level_progress (progress s)) k) as [tp|] eqn:E.
    + rewrite (topic_rank_set _ _ _ topicId _ Hl).
      destruct (String.eqb_spec k topicId) as [->|Hne]; [|lia].
      simpl. unfold topic_rank.
      destruct (topic_status s topicId) as [st|]; [apply status_rank_le_2|lia].
    + unfold topic_rank, topic_status. rewrite Hl. lia.
Qed.

Lemma apply_op_normal (op : TopicOp) (s : ProgressTracker.t) :
  outcome (apply_op op) s = Normal tt.
Proof.
  destruct op as [k now|k now]; simpl.
  - apply updateConversationProgress_topics.
  - apply completeTopic_topics.
Qed.

Lemma rank_2_is_completed (s : ProgressTracker.t) (topicId : string) :
  (2 <= topic_rank s topicId)%nat <-> topic_status s topicId = Some completed.
Proof.
  unfold topic_rank.
  destruct (topic_status s topicId) as [[]|]; simpl; split; intros H;
    try lia; try discriminate; reflexivity.
Qed.

(** Claim C4: along every sequence of [updateConversationProgress] and
    [completeTopic] calls, on whatever topics, the status of a topic only
    moves forward on the path not_started, in_progress, completed (a topic
    without a record counting as not started); a completed topic stays
    completed, in particular under further [updateConversationProgress]
    calls on it. *)
Theorem C4_status_never_regresses (ops : list TopicOp)
    (s : ProgressTracker.t) (topicId : string) :
  (topic_rank s topicId <= topic_rank (run_ops ops s) topicId)%nat
  /\ (topic_status s topicId = Some completed ->
      topic_status (run_ops ops s) topicId = Some completed)
  /\ (forall now,
        topic_status s topicId = Some completed ->
        topic_status (exec (updateConversationProgress topicId now) s) topicId
        = Some completed).
Proof.
  assert (Hmono : forall ops s,
            (topic_rank s topicId <= topic_rank (run_ops ops s) topicId)%nat).
  { clear. intros ops. induction ops as [|op ops IH]; intros s; simpl.
    - lia.
    - etransitivity; [apply (apply_op_monotone op)|apply IH]. }
  split; [apply Hmono|]. split.
  - intros H. apply rank_2_is_completed. apply rank_2_is_completed in H.
    specialize (Hmono ops s). lia.
  - intros now H. apply rank_2_is_completed. apply rank_2_is_completed in H.
    pose proof (apply_op_monotone (UpdateConversationProgress topicId now)
                  s topicId) as Hop.
    simpl in Hop. lia.
Qed.

(** ** Activity streak *)

Lemma emitted_app (s s' : ProgressTracker.t) (l : list Achievement) :
  achievements (progress s') = achievements (progress s) ++ l ->
  emitted s s' = l.
Proof.
  intros H. unfold emitted. rewrite H.
  rewrite skipn_app, skipn_all, Nat.sub_diag. reflexivity.
Qed.



(** ** Conversation session *)

(** What the session looks like once a failed send has been handled. *)
Lemma sendMessage_sends (now : Z) (s : ConversationManager.t) :
  isTutorTyping s = false ->
  tutorHasGreeted s = true ->
  trim (input_value s) <> EmptyString ->
  sendMessage now s
  = let message := trim (input_value s) in
    let s1 := set_input_value EmptyString s in
    let s2 := addMessage user_sender message None now s1 in
    let s3 := set_messageCount (messageCount s2 + 1) s2 in
    let s4 := setInputDisabled true (showTypingIndicator s3) in
    fetch (chat_request message now s4) s4.
Proof.
  intros Ht Hg Hm. unfold sendMessage. rewrite Ht, Hg. simpl.
  destruct (String.eqb_spec (trim (input_value s)) EmptyString) as [E|E];
    [contradiction|reflexivity].
Qed.




(** Claim C9: in every session state in which recording has been started
    and is not yet active, a tap on the voice button is rejected: no
    request is issued, so the stop endpoint is not called, and the session
    stays in the listening state with the recording not active; at most
    the status overlay changes. *)
Theorem C9_early_stop_is_rejected (s : ConversationManager.t) :
  isListening s = true ->
  recordingActive s = false ->
  let s' := toggleVoiceInput s in
  requests s' = requests s
  /\ ~ In POST_stt_stop (skipn (List.length (requests s)) (requests s'))
  /\ isListening s' = true
  /\ recordingActive s' = false
  /\ (s' = s \/ s' = showSystemStatus WaitForRecordingActive warning s).
Proof.
  intros Hl Ha. unfold toggleVoiceInput. rewrite Hl, Ha. simpl.
  destruct (isTutorTyping s || negb (tutorHasGreeted s)); simpl;
    rewrite skipn_all; simpl; repeat apply conj; auto.
Qed.

Lemma C9_early_stop_is_rejected_witness :
  let s' := toggleVoiceInput starting_session in
  requests s' = requests starting_session
  /\ ~ In POST_stt_stop
        (skipn (List.length (requests starting_session)) (requests s'))
  /\ isListening s' = true
  /\ recordingActive s' = false
  /\ (s' = starting_session
      \/ s' = showSystemStatus WaitForRecordingActive warning starting_session).
Proof.
  refine (C9_early_stop_is_rejected starting_session _ _); reflexivity.
Defined.

(** Claim C10, as stated, fails: in the session the learner left while the
    recording was starting, [isListening] is false and [recordingActive]
    is true; a call of [stopVoiceInput] returns at once there, issues no
    request, and leaves [recordingActive] true. *)
Lemma C10_stop_when_not_listening_resets_nothing :
  let s := left_while_starting in
  isListening s = false
  /\ recordingActive s = true
  /\ stopVoiceInput s = s
  /\ recordingActive (stopVoiceInput s) = true.
Proof.
  vm_compute. repeat split; reflexivity.
Qed.

(** Claim C10 (amended): a call of [stopVoiceInput] made while the session
    is listening sends the stop request, and when that request has
    settled, however it settled (fetch rejected, unreadable body, failure
    reported, no speech, or a transcript), and whatever happened to the
    session in between, [isListening] and [recordingActive] are false and
    the page lock and the listening mark of the button are removed.  A
    call made while the session is not listening returns at once and
    changes nothing. *)
Theorem C10_stop_resets_recording_state (s : ConversationManager.t) :
  (isListening s = true -> stopVoiceInput s = fetch POST_stt_stop s)
  /\ (forall (o : FetchOutcome SttStopData) (now : Z)
             (pending : ConversationManager.t),
        let s' := stopVoiceInput_resume o now pending in
        isListening s' = false
        /\ recordingActive s' = false
        /\ body_recording_active s' = false
        /\ voice_btn_listening s' = false
        /\ voice_text s' = "Tap to Speak"%string)
  /\ (isListening s = false -> stopVoiceInput s = s).
Proof.
  unfold stopVoiceInput.
  split; [intros H; now rewrite H|].
  split; [|intros H; now rewrite H].
  intros o now pending. cbv zeta.
  unfold stopVoiceInput_resume, stopVoiceInput_finally. simpl.
  repeat apply conj; reflexivity.
Qed.

(* ================================================================== *)
(** * Further properties of the tracker *)

Import ProgressTrackerMore.

(** ** Comparisons and NaN on Numbers *)

Lemma SFcompare_Lt_swap (a b : spec_float) :
  SFcompare a b = Some Lt -> SFcompare b a = Some Gt.
Proof.
  destruct a as [[]|[]| |[] ma ea], b as [[]|[]| |[] mb eb]; simpl;
    intros H; try discriminate H; try reflexivity;
    pose proof (Pos.compare_cont_antisym ma mb Eq) as Hm; simpl in Hm;
    rewrite (Z.compare_antisym ea eb), <- Hm;
    destruct (ea ?= eb); simpl in *; try discriminate H; try reflexivity;
    destruct (Pos.compare_cont Eq ma mb); simpl in *;
    try discriminate H; reflexivity.
Qed.

Lemma ltb_not_leb_swap (a b : number) :
  PrimFloat.ltb a b = true -> PrimFloat.leb b a = false.
Proof.
  rewrite ltb_spec, leb_spec. unfold SFltb, SFleb.
  destruct (SFcompare (Prim2SF a) (Prim2SF b)) as [[]|] eqn:E;
    intros H; try discriminate H.
  now rewrite (SFcompare_Lt_swap _ _ E).
Qed.

Lemma ltb_asym (a b : number) :
  PrimFloat.ltb a b = true -> PrimFloat.ltb b a = false.
Proof.
  rewrite !ltb_spec. unfold SFltb.
  destruct (SFcompare (Prim2SF a) (Prim2SF b)) as [[]|] eqn:E;
    intros H; try discriminate H.
  now rewrite (SFcompare_Lt_swap _ _ E).
Qed.

Lemma SFcompare_refl (a : spec_float) :
  a <> S754_nan -> SFcompare a a = Some Eq.
Proof.
  destruct a as [[]|[]| |[] m e]; simpl; intros H; try reflexivity;
    try contradiction;
    rewrite Z.compare_refl, Pos.compare_cont_refl; reflexivity.
Qed.

Lemma is_nan_spec (x : number) :
  is_nan x = true <-> Prim2SF x = S754_nan.
Proof.
  unfold is_nan. rewrite eqb_spec. unfold SFeqb. split.
  - intros H. destruct (Prim2SF x) eqn:E; try reflexivity;
      rewrite SFcompare_refl in H by discriminate; discriminate H.
  - intros ->. reflexivity.
Qed.

Lemma nan_compares_false (x y : number) :
  is_nan x = true ->
  PrimFloat.leb y x = false /\ PrimFloat.ltb x y = false.
Proof.
  intros H. apply is_nan_spec in H.
  rewrite leb_spec, ltb_spec, H. unfold SFleb, SFltb.
  destruct (Prim2SF y); auto.
Qed.

Lemma nan_add (x y : number) :
  is_nan x = true \/ is_nan y = true -> is_nan (x + y)%float = true.
Proof.
  rewrite !is_nan_spec, add_spec. unfold SF64add, SFadd.
  intros [-> | ->]; [reflexivity|]. destruct (Prim2SF x); reflexivity.
Qed.

Lemma nan_sub (x y : number) :
  is_nan x = true \/ is_nan y = true -> is_nan (x - y)%float = true.
Proof.
  rewrite !is_nan_spec, sub_spec. unfold SF64sub, SFsub.
  intros [-> | ->]; [reflexivity|]. destruct (Prim2SF x); reflexivity.
Qed.

Lemma nan_mul (x y : number) :
  is_nan x = true \/ is_nan y = true -> is_nan (x * y)%float = true.
Proof.
  rewrite !is_nan_spec, mul_spec. unfold SF64mul, SFmul.
  intros [-> | ->]; [reflexivity|]. destruct (Prim2SF x); reflexivity.
Qed.

(** ** Spaced repetition, beyond the scenarios *)

Lemma item_after_review (s : ProgressTracker.t) (itemId : string)
    (quality : number) (now : Z) :
  item_at (exec (updateSpacedRepetitionItem itemId quality now) s) itemId
  = option_map (review quality now) (item_at s itemId).
Proof.
  unfold exec. destruct (item_at s itemId) as [item|] eqn:E.
  - rewrite (updateSpacedRepetitionItem_found s itemId item quality now E).
    unfold item_at. simpl. apply get_set_same.
  - rewrite (updateSpacedRepetitionItem_missing s itemId quality now E).
    simpl. now rewrite E.
Qed.

(** Property X1.  A review with a score below 3, or with a score that is not a number,
    counts as failed whatever the history of the item: repetitions go
    back to 0 and the interval to 1 day. *)
Theorem failed_review_resets_item (s : ProgressTracker.t) (itemId : string)
    (item : SpacedRepetitionItem) (quality : number) (now : Z) :
  item_at s itemId = Some item ->
  PrimFloat.ltb quality 3%float = true \/ is_nan quality = true ->
  exists item',
    item_at (exec (updateSpacedRepetitionItem itemId quality now) s) itemId
    = Some item'
    /\ repetitions item' = 0%float
    /\ interval item' = 1%float
    /\ last_reviewed item' = Some now.
Proof.
  intros Hitem Hq. rewrite item_after_review, Hitem. simpl.
  eexists. split; [reflexivity|].
  assert (E : PrimFloat.leb 3%float quality = false).
  { destruct Hq as [Hq|Hq].
    - now apply ltb_not_leb_swap.
    - now apply (nan_compares_false quality 3%float). }
  unfold review, sm2_interval. rewrite E. simpl. auto.
Qed.

Lemma failed_review_resets_item_witness :
  exists item',
    item_at (exec (updateSpacedRepetitionItem fresh_key 2%float 2000)
                  fresh_tracker) fresh_key
    = Some item'
    /\ repetitions item' = 0%float
    /\ interval item' = 1%float
    /\ last_reviewed item' = Some 2000.
Proof.
  refine (failed_review_resets_item fresh_tracker fresh_key
            (Build_SpacedRepetitionItem "greetings_1000" "Hello" "salam"
               "greetings" 1%float 0%float 2.5%float (Some 86401000) 1000 None)
            2%float 2000 _ _).
  - vm_compute. reflexivity.
  - left. vm_compute. reflexivity.
Defined.

Lemma Math_max_MIN_FACTOR (x : number) :
  PrimFloat.ltb (Math_max CONFIG.SPACED_REPETITION.MIN_FACTOR x)
                CONFIG.SPACED_REPETITION.MIN_FACTOR = false.
Proof.
  unfold Math_max.
  change (is_nan CONFIG.SPACED_REPETITION.MIN_FACTOR) with false.
  change (get_sign CONFIG.SPACED_REPETITION.MIN_FACTOR) with false.
  simpl orb.
  destruct (is_nan x); [vm_compute; reflexivity|].
  destruct (PrimFloat.ltb CONFIG.SPACED_REPETITION.MIN_FACTOR x) eqn:E.
  - now apply ltb_asym.
  - destruct (PrimFloat.ltb x CONFIG.SPACED_REPETITION.MIN_FACTOR);
      vm_compute; reflexivity.
Qed.

(** Property X2.  Whatever scores are given, in whatever order, and whatever the item
    held before, after each review the ease factor is not a number below
    MIN_FACTOR (1.3). *)
Theorem ease_factor_never_below_MIN_FACTOR (itemId : string)
    (qualities : list number) (now : Z) (s : ProgressTracker.t) :
  Forall (fun after =>
            match after with
            | Some item =>
                PrimFloat.ltb (ease_factor item)
                              CONFIG.SPACED_REPETITION.MIN_FACTOR = false
            | None => True
            end)
         (review_all itemId qualities now s).
Proof.
  revert s. induction qualities as [|q qs IH]; intros s; simpl.
  - constructor.
  - constructor; [|apply IH].
    rewrite item_after_review.
    destruct (item_at s itemId) as [item|]; simpl; [|exact I].
    unfold review. destruct (sm2_interval q item). simpl.
    apply Math_max_MIN_FACTOR.
Qed.

(** Property X3.  A score that is not a number, or an ease factor that is not a number,
    leaves the item with an ease factor that is not a number: once NaN,
    the ease factor stays NaN under every later review. *)
Theorem NaN_ease_factor_is_absorbing (s : ProgressTracker.t) (itemId : string)
    (item : SpacedRepetitionItem) (quality : number) (now : Z) :
  item_at s itemId = Some item ->
  is_nan quality = true \/ is_nan (ease_factor item) = true ->
  exists item',
    item_at (exec (updateSpacedRepetitionItem itemId quality now) s) itemId
    = Some item'
    /\ is_nan (ease_factor item') = true.
Proof.
  intros Hitem Hnan. rewrite item_after_review, Hitem. simpl.
  eexists. split; [reflexivity|].
  unfold review. destruct (sm2_interval quality item). simpl.
  unfold sm2_ease_factor, Math_max.
  match goal with
  | |- context [is_nan ?a || is_nan ?x] =>
      assert (Hx : is_nan x = true)
  end.
  { apply nan_add. destruct Hnan as [Hq|He]; [right|left; exact He].
    apply nan_sub. right. apply nan_mul.
    left. apply nan_sub. right. exact Hq. }
  rewrite Hx, orb_true_r. reflexivity.
Qed.

Lemma NaN_ease_factor_is_absorbing_witness :
  exists item',
    item_at (exec (updateSpacedRepetitionItem fresh_key nan 2000)
                  fresh_tracker) fresh_key
    = Some item'
    /\ is_nan (ease_factor item') = true.
Proof.
  refine (NaN_ease_factor_is_absorbing fresh_tracker fresh_key
            (Build_SpacedRepetitionItem "greetings_1000" "Hello" "salam"
               "greetings" 1%float 0%float 2.5%float (Some 86401000) 1000 None)
            nan 2000 _ _).
  - vm_compute. reflexivity.
  - left. vm_compute. reflexivity.
Defined.

Lemma set_keeps_keys {V : Type} (o : JS.object V) (k : string) (v : V) :
  JS.get o k <> None -> map fst (JS.set o k v) = map fst o.
Proof.
  induction o as [|[k' v'] o IH]; simpl; intros H.
  - contradiction.
  - destruct (String.eqb k' k); simpl; [reflexivity|].
    now rewrite IH.
Qed.

Lemma set_adds_key {V : Type} (o : JS.object V) (k : string) (v : V) :
  JS.get o k = None -> JS.set o k v = o ++ [(k, v)].
Proof.
  induction o as [|[k' v'] o IH]; simpl; intros H.
  - reflexivity.
  - destruct (String.eqb k' k); [discriminate H|].
    now rewrite IH.
Qed.

(** Property X4.  A review touches the reviewed item only: topic progress and streak
    data are unchanged, no item is added, removed or moved, and every
    other item is as it was. *)
Theorem review_touches_one_item (s : ProgressTracker.t) (itemId : string)
    (quality : number) (now : Z) :
  let s' := exec (updateSpacedRepetitionItem itemId quality now) s in
  progress s' = progress s
  /\ streakData s' = streakData s
  /\ map fst (items (spacedRepetitionData s'))
     = map fst (items (spacedRepetitionData s))
  /\ (forall other, other <> itemId -> item_at s' other = item_at s other).
Proof.
  cbv zeta. unfold exec.
  destruct (item_at s itemId) as [item|] eqn:E.
  - rewrite (updateSpacedRepetitionItem_found s itemId item quality now E).
    simpl. repeat apply conj; try reflexivity.
    + apply set_keeps_keys. unfold item_at in E. congruence.
    + intros other Hne. unfold item_at. simpl.
      apply get_set_other. congruence.
  - rewrite (updateSpacedRepetitionItem_missing s itemId quality now E).
    simpl. auto.
Qed.

(** Property X5.  Marking a phrase as learned stores a new item under the key made of
    the topic id and the time, with the initial schedule (interval 1,
    no repetition, ease factor 2.5, never reviewed), and returns that key;
    the other items are unchanged.  When an item is already stored under
    the key (same topic, same millisecond) it is replaced: the store does
    not grow. *)
Theorem added_item_is_stored (s : ProgressTracker.t)
    (english farsi topicId : string) (now : Z) :
  let call := addSpacedRepetitionItem english farsi topicId now in
  let key := (topicId ++ "_" ++ toString now)%string in
  let s' := exec call s in
  outcome call s = Normal key
  /\ (exists item,
        item_at s' key = Some item
        /\ phrase item = english /\ translation item = farsi
        /\ topic item = topicId
        /\ interval item = 1%float /\ repetitions item = 0%float
        /\ ease_factor item = 2.5%float /\ last_reviewed item = None)
  /\ (forall other, other <> key -> item_at s' other = item_at s other)
  /\ (item_at s key = None ->
      List.length (items (spacedRepetitionData s'))
      = S (List.length (items (spacedRepetitionData s))))
  /\ (item_at s key <> None ->
      map fst (items (spacedRepetitionData s'))
      = map fst (items (spacedRepetitionData s))).
Proof.
  cbv zeta. unfold outcome, exec, addSpacedRepetitionItem, bind, modify, ret,
    item_at. simpl.
  repeat apply conj.
  - reflexivity.
  - eexists. split; [apply get_set_same|]. simpl. repeat apply conj; reflexivity.
  - intros other Hne. apply get_set_other. congruence.
  - intros H. rewrite (set_adds_key _ _ _ H), length_app. simpl. lia.
  - intros H. now apply set_keeps_keys.
Qed.

(** ** Activity streak, beyond the milestones *)

Lemma toDateString_dayBefore (now : Z) :
  toDateString (dayBefore now) = toDateString now - 1.
Proof.
  unfold toDateString, dayBefore.
  replace (now - msPerDay) with (now + (-1) * msPerDay) by lia.
  rewrite Z.div_add by (vm_compute; discriminate). lia.
Qed.

(** What one call does to the streak data. *)
Lemma updateActivityStreak_streakData (now : Z) (s : ProgressTracker.t) :
  let sd := streakData s in
  let same_day :=
    match last_activity_date sd with
    | Some la => toDateString la =? toDateString now
    | None => false
    end in
  let next_day :=
    match last_activity_date sd with
    | Some la => toDateString la =? toDateString now - 1
    | None => false
    end in
  streakData (exec (updateActivityStreak now) s)
  = if same_day then sd
    else
      let current := if next_day then current_streak sd + 1 else 1 in
      {| current_streak := current;
         longest_streak := Z.max (longest_streak sd) current;
         last_activity_date := Some now;
         streak_start_date :=
           if next_day then streak_start_date sd
           else Some (toDateString now) |}.
Proof.
  cbv zeta.
  unfold exec, updateActivityStreak, addAchievement, bind, gets, modify, ret.
  rewrite toDateString_dayBefore.
  destruct s as [p [cur lon la st] sr]. simpl.
  destruct la as [la|]; simpl;
    repeat match goal with
           | |- context [?a <? ?b] => destruct (Z.ltb_spec a b); simpl
           | |- context [?a =? ?b] => destruct (Z.eqb_spec a b); simpl
           end;
    simpl in *; try reflexivity; f_equal; lia.
Qed.

(** Property X6.  The streak counters stay in order under loading and under any
    sequence of recorded activities, and the longest streak never
    decreases. *)
Theorem streak_counters_stay_ordered (times : list Z) (s : ProgressTracker.t)
    (loaded_at : Z) :
  streak_ok (streakData s) ->
  let s' := record_activities times s in
  streak_ok (streakData s')
  /\ longest_streak (streakData s) <= longest_streak (streakData s')
  /\ streak_ok (loadStreakData (Some (streakData s)) loaded_at)
  /\ longest_streak (loadStreakData (Some (streakData s)) loaded_at)
     = longest_streak (streakData s).
Proof.
  intros Hok. cbv zeta.
  assert (Hrun : forall times s,
            streak_ok (streakData s) ->
            streak_ok (streakData (record_activities times s))
            /\ longest_streak (streakData s)
               <= longest_streak (streakData (record_activities times s))).
  { clear. intros times. induction times as [|now times IH]; intros s Hok; simpl.
    - split; [exact Hok|lia].
    - assert (Hstep : streak_ok (streakData (exec (updateActivityStreak now) s))
                      /\ longest_streak (streakData s)
                         <= longest_streak
                              (streakData (exec (updateActivityStreak now) s))).
      { rewrite updateActivityStreak_streakData. unfold streak_ok in *.
        destruct (streakData s) as [cur lon la st]. simpl in *.
        destruct la as [la|]; simpl;
          repeat match goal with
                 | |- context [?a =? ?b] => destruct (Z.eqb_spec a b); simpl
                 end; lia. }
      destruct Hstep as [Hok' Hle].
      destruct (IH _ Hok') as [Hok'' Hle']. split; [exact Hok''|lia]. }
  destruct (Hrun times s Hok) as [H1 H2].
  split; [exact H1|]. split; [exact H2|]. split.
  - unfold loadStreakData, streak_ok in *.
    destruct (streakData s) as [cur lon la st]. simpl in *.
    destruct la as [la|]; simpl; [|lia].
    match goal with |- context [if ?c then _ else _] => destruct c end;
      simpl; lia.
  - unfold loadStreakData.
    destruct (streakData s) as [cur lon la st]. simpl.
    destruct la as [la|]; simpl; [|reflexivity].
    match goal with |- context [if ?c then _ else _] => destruct c end;
      reflexivity.
Qed.

Lemma streak_counters_stay_ordered_witness :
  let s' := record_activities [10 * msPerDay; 11 * msPerDay; 20 * msPerDay]
                              returning_learner in
  streak_ok (streakData s')
  /\ longest_streak (streakData returning_learner) <= longest_streak (streakData s')
  /\ streak_ok (loadStreakData (Some (streakData returning_learner)) (30 * msPerDay))
  /\ longest_streak (loadStreakData (Some (streakData returning_learner)) (30 * msPerDay))
     = longest_streak (streakData returning_learner).
Proof.
  refine (streak_counters_stay_ordered
            [10 * msPerDay; 11 * msPerDay; 20 * msPerDay] returning_learner
            (30 * msPerDay) _).
  unfold streak_ok. simpl. lia.
Defined.

Lemma last_cons_default {A : Type} (l : list A) (a d : A) :
  last (a :: l) d = last l a.
Proof.
  revert a d. induction l as [|b l IH]; intros a d; [reflexivity|].
  change (last (a :: b :: l) d) with (last (b :: l) d).
  now rewrite !IH.
Qed.

Lemma record_activities_day_by_day (times : list Z) (s : ProgressTracker.t)
    (la : Z) :
  last_activity_date (streakData s) = Some la ->
  day_by_day (toDateString la) times ->
  exists la',
    last_activity_date (streakData (record_activities times s)) = Some la'
    /\ toDateString la' = toDateString (last times la)
    /\ current_streak (streakData (record_activities times s))
       = current_streak (streakData s)
         + (toDateString (last times la) - toDateString la).
Proof.
  revert s la. induction times as [|now times IH]; intros s la Hla Hdays.
  - simpl. exists la. repeat split; auto. lia.
  - destruct Hdays as [Hday Hrest].
    change (record_activities (now :: times) s)
      with (record_activities times (exec (updateActivityStreak now) s)).
    rewrite last_cons_default.
    pose proof (updateActivityStreak_streakData now s) as Hstep.
    cbv zeta in Hstep. rewrite Hla in Hstep.
    destruct (Z.eqb_spec (toDateString la) (toDateString now)) as [Esame|Esame].
    + assert (Hla' : last_activity_date
                       (streakData (exec (updateActivityStreak now) s)) = Some la)
        by (rewrite Hstep; exact Hla).
      assert (Hrest' : day_by_day (toDateString la) times)
        by (rewrite Esame; exact Hrest).
      destruct (IH _ la Hla' Hrest') as [la' [H1 [H2 H3]]].
      assert (Hl : toDateString (last times la) = toDateString (last times now)).
      { destruct times as [|x l]; [exact Esame|].
        now rewrite !last_cons_default. }
      exists la'. rewrite H1, H2, H3, Hstep, Hl. repeat split; lia.
    + assert (Enext : toDateString la = toDateString now - 1) by lia.
      rewrite Enext, Z.eqb_refl in Hstep.
      assert (Hla' : last_activity_date
                       (streakData (exec (updateActivityStreak now) s)) = Some now)
        by (rewrite Hstep; reflexivity).
      destruct (IH _ now Hla' Hrest) as [la' [H1 [H2 H3]]].
      exists la'. rewrite H1, H2, H3, Hstep. cbn [current_streak].
      repeat split; lia.
Qed.

(** Property X7.  Activities on a run of days without a gap, possibly several on one
    day, starting from a tracker without recorded activity: the current
    streak is the number of days from the first activity to the last. *)
Theorem streak_counts_days_without_gap (s : ProgressTracker.t) (first : Z)
    (times : list Z) :
  last_activity_date (streakData s) = None ->
  day_by_day (toDateString first) times ->
  current_streak (streakData (record_activities (first :: times) s))
  = toDateString (last times first) - toDateString first + 1.
Proof.
  intros Hnone Hdays.
  change (record_activities (first :: times) s)
    with (record_activities times (exec (updateActivityStreak first) s)).
  pose proof (updateActivityStreak_streakData first s) as Hstep.
  cbv zeta in Hstep. rewrite Hnone in Hstep.
  assert (Hla : last_activity_date
                  (streakData (exec (updateActivityStreak first) s)) = Some first)
    by (rewrite Hstep; reflexivity).
  destruct (record_activities_day_by_day times _ first Hla Hdays)
    as [la' [_ [_ H]]].
  rewrite H, Hstep. cbn [current_streak]. lia.
Qed.

Lemma streak_counts_days_without_gap_witness :
  current_streak
    (streakData
       (record_activities
          (3 * msPerDay :: [3 * msPerDay + 5000; 4 * msPerDay; 5 * msPerDay + 7])
          ProgressTracker.empty))
  = toDateString (last [3 * msPerDay + 5000; 4 * msPerDay; 5 * msPerDay + 7]
                       (3 * msPerDay))
    - toDateString (3 * msPerDay) + 1.
Proof.
  refine (streak_counts_days_without_gap ProgressTracker.empty (3 * msPerDay)
            [3 * msPerDay + 5000; 4 * msPerDay; 5 * msPerDay + 7] _ _).
  - reflexivity.
  - vm_compute. repeat split; auto.
Defined.

(** Property X8.  Resetting a broken streak when the data is loaded does not change
    what the next activity records: loading and then recording gives the
    same tracker as recording alone, whenever both happen on one day. *)
Theorem loading_does_not_change_next_activity (s : ProgressTracker.t)
    (loaded_at now : Z) :
  toDateString loaded_at = toDateString now ->
  exec (updateActivityStreak now)
       (with_streakData (fun sd => loadStreakData (Some sd) loaded_at) s)
  = exec (updateActivityStreak now) s.
Proof.
  intros Hday.
  unfold exec, updateActivityStreak, addAchievement, bind, gets, modify, ret,
    loadStreakData.
  rewrite !toDateString_dayBefore, Hday.
  destruct s as [p [cur lon la st] sr].
  unfold with_streakData, with_progress. simpl.
  destruct la as [la|]; simpl; [|reflexivity].
  repeat match goal with
         | |- context [?a =? ?b] => destruct (Z.eqb_spec a b); simpl
         | |- context [?a <? ?b] => destruct (Z.ltb_spec a b); simpl
         end;
    first [reflexivity | exfalso; simpl in *; lia].
Qed.

Lemma loading_does_not_change_next_activity_witness :
  exec (updateActivityStreak (30 * msPerDay + 9))
       (with_streakData (fun sd => loadStreakData (Some sd) (30 * msPerDay))
                        returning_learner)
  = exec (updateActivityStreak (30 * msPerDay + 9)) returning_learner.
Proof.
  refine (loading_does_not_change_next_activity returning_learner
            (30 * msPerDay) (30 * msPerDay + 9) _).
  vm_compute. reflexivity.
Defined.

(** ** Topic progress, beyond the status *)

Lemma includes_topic_In (l : list string) (x : string) :
  includes_topic l x = true <-> In x l.
Proof.
  unfold includes_topic. rewrite existsb_exists. split.
  - intros [y [Hin E]]. apply String.eqb_eq in E. now subst.
  - intros H. exists x. split; [exact H|apply String.eqb_refl].
Qed.

(** What a conversation leaves in [progress], apart from the topic
    records and the streak. *)
Lemma updateConversationProgress_progress (topicId : string) (now : Z)
    (s : ProgressTracker.t) :
  let p := progress s in
  let p' := progress (exec (updateConversationProgress topicId now) s) in
  topics_completed p' = topics_completed p
  /\ level p' = level p
  /\ conversation_count p' = conversation_count p + 1
  /\ topics_in_progress p'
     = topics_in_progress p
       ++ match get (level_progress p) topicId with
          | Some tp => if Status_eqb (status tp) not_started then [topicId] else []
          | None => []
          end
  /\ spacedRepetitionData (exec (updateConversationProgress topicId now) s)
     = spacedRepetitionData s.
Proof.
  cbv zeta.
  unfold exec, updateConversationProgress, updateActivityStreak, addAchievement,
    bind, gets, modify, ret.
  destruct (get (level_progress (progress s)) topicId) as [tp|]; simpl;
    [destruct (Status_eqb (status tp) not_started); simpl|];
    break_tests; simpl; rewrite ?app_nil_r; repeat apply conj; reflexivity.
Qed.

(** What completing a topic with a record leaves in [progress]. *)
Lemma completeTopic_progress (topicId : string) (now : Z)
    (s : ProgressTracker.t) (tp : TopicProgress) :
  get (level_progress (progress s)) topicId = Some tp ->
  let p := progress s in
  let p' := progress (exec (completeTopic topicId now) s) in
  let completed' :=
    if includes_topic (topics_completed p) topicId then topics_completed p
    else topics_completed p ++ [topicId] in
  topics_completed p' = completed'
  /\ level p' = level p
  /\ conversation_count p' = conversation_count p
  /\ topics_in_progress p' = remove_first topicId (topics_in_progress p)
  /\ achievements p'
     = achievements p
       ++ topic_achievement topicId now
          :: (if forallb (includes_topic completed') (CONFIG.LEVELS_topics (level p))
              then [level_achievement (level p) now] else [])
  /\ streakData (exec (completeTopic topicId now) s) = streakData s
  /\ spacedRepetitionData (exec (completeTopic topicId now) s)
     = spacedRepetitionData s.
Proof.
  intros Hget. cbv zeta.
  unfold exec, completeTopic, checkLevelCompletion, addAchievement,
    bind, gets, modify, ret.
  rewrite Hget.
  unfold with_progress, set_topics_in_progress, set_level_progress,
    set_topics_completed, push_achievement. simpl.
  destruct (includes_topic (topics_completed (progress s)) topicId); simpl;
    match goal with
    | |- context [forallb ?f ?l] => destruct (forallb f l)
    end; simpl; rewrite <- ?app_assoc; repeat apply conj; reflexivity.
Qed.

Lemma topic_status_after_conversation (topicId other : string) (now : Z)
    (s : ProgressTracker.t) :
  topic_status (exec (updateConversationProgress topicId now) s) other
  = Some completed
  <-> topic_status s other = Some completed.
Proof.
  destruct (updateConversationProgress_topics topicId now s) as [_ Hl].
  unfold topic_status. rewrite Hl.
  destruct (String.eqb_spec topicId other) as [->|Hne].
  - rewrite get_set_same.
    destruct (get (level_progress (progress s)) other) as [tp|]; simpl.
    + destruct (status tp); simpl; split; intros H; try discriminate H;
        reflexivity.
    + split; discriminate.
  - rewrite get_set_other by exact Hne. reflexivity.
Qed.

Lemma topic_status_after_completion (topicId other : string) (now : Z)
    (s : ProgressTracker.t) (tp : TopicProgress) :
  get (level_progress (progress s)) topicId = Some tp ->
  topic_status (exec (completeTopic topicId now) s) other
  = if String.eqb topicId other then Some completed else topic_status s other.
Proof.
  intros Hget.
  destruct (completeTopic_topics topicId now s) as [_ Hl].
  rewrite Hget in Hl. unfold topic_status. rewrite Hl.
  destruct (String.eqb_spec topicId other) as [->|Hne].
  - now rewrite get_set_same.
  - now rewrite get_set_other.
Qed.

Lemma apply_op_completed_list (op : TopicOp) (s : ProgressTracker.t) :
  completed_list_ok s -> completed_list_ok (exec (apply_op op) s).
Proof.
  intros [Hnd Hiff]. destruct op as [k now|k now]; simpl.
  - destruct (updateConversationProgress_progress k now s) as [Hc _].
    cbv zeta in Hc. split.
    + now rewrite Hc.
    + intros topicId. rewrite Hc, topic_status_after_conversation. apply Hiff.
  - destruct (get (level_progress (progress s)) k) as [tp|] eqn:Hget.
    + destruct (completeTopic_progress k now s tp Hget) as [Hc _].
      cbv zeta in Hc.
      destruct (includes_topic (topics_completed (progress s)) k) eqn:Hin.
      * apply includes_topic_In in Hin. split.
        -- now rewrite Hc.
        -- intros topicId.
           rewrite Hc, (topic_status_after_completion k topicId now s tp Hget).
           destruct (String.eqb_spec k topicId) as [->|Hne]; [|apply Hiff].
           split; auto.
      * assert (Hnin : ~ In k (topics_completed (progress s))).
        { intros H. apply includes_topic_In in H. congruence. }
        split.
        -- rewrite Hc. apply NoDup_app; auto.
           ++ constructor; [intros []|constructor].
           ++ intros x Hx [<-|[]]. contradiction.
        -- intros topicId.
           rewrite Hc, (topic_status_after_completion k topicId now s tp Hget).
           rewrite in_app_iff. simpl.
           destruct (String.eqb_spec k topicId) as [->|Hne].
           ++ split; auto.
           ++ rewrite <- Hiff. split; [intros [H|[H|[]]]; auto; contradiction|auto].
    + unfold exec. rewrite (completeTopic_missing s k now Hget). now split.
Qed.






(** ** Initialisation and the level report *)

Lemma fold_set_untouched (topics : list string) (o : object TopicProgress)
    (k : string) :
  get (fold_left (fun levelProgress topicId =>
                    JS.set levelProgress topicId untouched_topic) topics o) k
  = if includes_topic topics k then Some untouched_topic else get o k.
Proof.
  revert o. induction topics as [|x topics IH]; intros o; simpl.
  - reflexivity.
  - rewrite IH. unfold includes_topic in *. simpl.
    destruct (existsb (String.eqb k) topics); [now rewrite orb_true_r|].
    rewrite orb_false_r.
    destruct (String.eqb_spec k x) as [->|Hne].
    + apply get_set_same.
    + apply get_set_other. congruence.
Qed.




(** ** Pronunciation scores *)

(** Property X14.  The list of pronunciation scores never holds more than 50 entries
    once it holds at most 50: a new score is appended as the newest
    entry, and beyond 50 the oldest entries are dropped, the remaining
    ones keeping their order. *)
Theorem pronunciation_scores_are_capped (sc : number) (phrase : string)
    (now : Z) (scores : list PronunciationScore) :
  let entry := {| score := sc; scored_phrase := phrase; scored_at := now |} in
  let scores' := updatePronunciationScore sc phrase now scores in
  List.length scores' = Nat.min 50 (List.length scores + 1)
  /\ (exists dropped, scores ++ [entry] = dropped ++ scores')
  /\ last scores' entry = entry
  /\ scores' <> [].
Proof.
  cbv zeta. unfold updatePronunciationScore, slice_last.
  set (entry := {| score := sc; scored_phrase := phrase; scored_at := now |}).
  set (l := scores ++ [entry]).
  assert (Hlen : List.length l = (List.length scores + 1)%nat)
    by (unfold l; rewrite length_app; reflexivity).
  assert (Hlast : last l entry = entry) by (unfold l; apply last_last).
  destruct (Nat.ltb_spec 50 (List.length l)) as [Hbig|Hsmall].
  - assert (Hskip : skipn (List.length l - 50) l
                    = skipn (List.length l - 50) scores ++ [entry]).
    { unfold l at 2. rewrite skipn_app.
      replace (List.length l - 50 - List.length scores)%nat with 0%nat by lia.
      reflexivity. }
    repeat apply conj.
    + rewrite length_skipn. lia.
    + exists (firstn (List.length l - 50) l). symmetry. apply firstn_skipn.
    + rewrite Hskip. apply last_last.
    + rewrite Hskip. intros E. apply app_eq_nil in E. destruct E as [_ E].
      discriminate E.
  - repeat apply conj.
    + lia.
    + exists []. reflexivity.
    + exact Hlast.
    + intros E. rewrite E in Hlen. simpl in Hlen. lia.
Qed.

(* ================================================================== *)
(** * Properties of the topics manager *)

(** Property X15.  The position in the phrases stays on a phrase (or at 0 when the topic
    has none) under [nextPhrase] and [previousPhrase], which change
    neither the phrases nor the topic; on a topic with phrases there is
    always a current phrase; and going back after going forward returns
    to the phrase one started from, leaving the manager and the tracker
    as they were. *)
Theorem phrase_position_stays_valid (w : TopicsManager.World) (now : Z) :
  TopicsManager.index_ok (TopicsManager.manager w) ->
  let m := TopicsManager.manager w in
  let forward := snd (TopicsManager.nextPhrase now w) in
  let backward := snd (TopicsManager.previousPhrase w) in
  TopicsManager.index_ok (TopicsManager.manager forward)
  /\ TopicsManager.index_ok (TopicsManager.manager backward)
  /\ TopicsManager.currentPhrases (TopicsManager.manager forward)
     = TopicsManager.currentPhrases m
  /\ TopicsManager.currentPhrases (TopicsManager.manager backward)
     = TopicsManager.currentPhrases m
  /\ (TopicsManager.currentPhrases m <> [] ->
      TopicsManager.getCurrentPhrase m <> None)
  /\ (TopicsManager.currentPhraseIndex m
      < Z.of_nat (List.length (TopicsManager.currentPhrases m)) - 1 ->
      TopicsManager.previousPhrase forward
      = (TopicsManager.getCurrentPhrase m, w)).
Proof.
  intros [H0 Hi]. cbv zeta.
  destruct w as [[topic phrases i] tr]. simpl in *.
  unfold TopicsManager.nextPhrase, TopicsManager.previousPhrase,
    TopicsManager.completeTopic, TopicsManager.getCurrentPhrase.
  simpl.
  split; [|split; [|split; [|split; [|split]]]].
  - unfold TopicsManager.index_ok.
    destruct (Z.ltb_spec i (Z.of_nat (List.length phrases) - 1)); simpl.
    + lia.
    + destruct topic; simpl; auto.
  - unfold TopicsManager.index_ok.
    destruct (Z.ltb_spec 0 i); simpl; [lia|auto].
  - destruct (Z.ltb_spec i (Z.of_nat (List.length phrases) - 1)); simpl;
      [reflexivity|destruct topic; reflexivity].
  - destruct (Z.ltb_spec 0 i); reflexivity.
  - intros Hne.
    destruct Hi as [Hi|[He _]]; [|contradiction].
    destruct (Z.leb_spec (Z.of_nat (List.length phrases)) i); [lia|].
    destruct (Z.ltb_spec i 0); [lia|].
    apply nth_error_Some. lia.
  - intros Hlt.
    destruct (Z.ltb_spec i (Z.of_nat (List.length phrases) - 1)); [|lia].
    simpl.
    destruct (Z.ltb_spec 0 (i + 1)); [|lia].
    unfold TopicsManager.set_index. simpl.
    replace (i + 1 - 1) with i by lia. reflexivity.
Qed.

Lemma phrase_position_stays_valid_witness :
  let phrases :=
    [ {| TopicsManager.phrase_id := "greetings_0"; TopicsManager.english := "Hello";
         TopicsManager.farsi := "salam" |};
      {| TopicsManager.phrase_id := "greetings_1";
         TopicsManager.english := "Good morning";
         TopicsManager.farsi := "sobh bekheyr" |} ]%string in
  let w := {| TopicsManager.manager :=
                {| TopicsManager.currentTopic := Some "greetings"%string;
                   TopicsManager.currentPhrases := phrases;
                   TopicsManager.currentPhraseIndex := 0 |};
              TopicsManager.tracker := ProgressTracker.empty |} in
  let m := TopicsManager.manager w in
  let forward := snd (TopicsManager.nextPhrase 5000 w) in
  let backward := snd (TopicsManager.previousPhrase w) in
  TopicsManager.index_ok (TopicsManager.manager forward)
  /\ TopicsManager.index_ok (TopicsManager.manager backward)
  /\ TopicsManager.currentPhrases (TopicsManager.manager forward)
     = TopicsManager.currentPhrases m
  /\ TopicsManager.currentPhrases (TopicsManager.manager backward)
     = TopicsManager.currentPhrases m
  /\ (TopicsManager.currentPhrases m <> [] ->
      TopicsManager.getCurrentPhrase m <> None)
  /\ (TopicsManager.currentPhraseIndex m
      < Z.of_nat (List.length (TopicsManager.currentPhrases m)) - 1 ->
      TopicsManager.previousPhrase forward
      = (TopicsManager.getCurrentPhrase m, w)).
Proof.
  intros phrases w.
  refine (phrase_position_stays_valid w 5000 _).
  unfold TopicsManager.index_ok. simpl. split; [lia|left; lia].
Defined.

Lemma nextPhrase_times_succ (k : nat) (now : Z) (w : TopicsManager.World) :
  TopicsManager.nextPhrase_times (S k) now w
  = snd (TopicsManager.nextPhrase now (TopicsManager.nextPhrase_times k now w)).
Proof.
  revert w. induction k as [|k IH]; intros w; [reflexivity|].
  change (TopicsManager.nextPhrase_times (S (S k)) now w)
    with (TopicsManager.nextPhrase_times (S k) now
            (snd (TopicsManager.nextPhrase now w))).
  rewrite IH. reflexivity.
Qed.

Lemma nextPhrase_times_advances (k : nat) (now : Z) (w : TopicsManager.World) :
  0 <= TopicsManager.currentPhraseIndex (TopicsManager.manager w) ->
  TopicsManager.currentPhraseIndex (TopicsManager.manager w) + Z.of_nat k
  <= Z.of_nat (List.length (TopicsManager.currentPhrases (TopicsManager.manager w)))
     - 1 ->
  TopicsManager.nextPhrase_times k now w
  = {| TopicsManager.manager :=
         TopicsManager.set_index
           (TopicsManager.currentPhraseIndex (TopicsManager.manager w)
            + Z.of_nat k)
           (TopicsManager.manager w);
       TopicsManager.tracker := TopicsManager.tracker w |}.
Proof.
  revert w. induction k as [|k IH]; intros w H0 Hk.
  - destruct w as [[topic phrases i] tr]. simpl.
    unfold TopicsManager.set_index. simpl. now rewrite Z.add_0_r.
  - rewrite nextPhrase_times_succ, IH by lia.
    unfold TopicsManager.nextPhrase. simpl.
    destruct (Z.ltb_spec
                (TopicsManager.currentPhraseIndex (TopicsManager.manager w)
                 + Z.of_nat k)
                (Z.of_nat (List.length
                             (TopicsManager.currentPhrases
                                (TopicsManager.manager w))) - 1)); [|lia].
    simpl. unfold TopicsManager.set_index. simpl.
    replace (TopicsManager.currentPhraseIndex (TopicsManager.manager w)
             + Z.of_nat k + 1)
      with (TopicsManager.currentPhraseIndex (TopicsManager.manager w)
            + Z.of_nat (S k)) by lia.
    reflexivity.
Qed.


(* ================================================================== *)
(** * Further properties of the conversation session *)

Import ConversationManagerMore.

Lemma issued_app (s s' : ConversationManager.t) (l : list Request) :
  requests s' = requests s ++ l -> issued s s' = l.
Proof.
  intros H. unfold issued. rewrite H.
  rewrite skipn_app, skipn_all, Nat.sub_diag. reflexivity.
Qed.



(** Before the welcome message nothing is sent either: with the tutor
    typing or not having greeted, a send and a tap on the voice button
    do nothing. *)
Lemma gate_closed (s : ConversationManager.t) (now : Z) :
  isTutorTyping s = true \/ tutorHasGreeted s = false ->
  sendMessage now s = s /\ toggleVoiceInput s = s /\ startVoiceInput s = s.
Proof.
  intros H. unfold sendMessage, toggleVoiceInput, startVoiceInput.
  assert (E : isTutorTyping s || negb (tutorHasGreeted s) = true).
  { destruct H as [-> | ->]; [reflexivity|apply orb_true_r]. }
  rewrite E. auto.
Qed.





(** ** Invariants of the session machine *)

Section MachineFacts.

Variable names : string -> option string.

(** [sendMessage] leaves the recording state and its marks alone. *)
Lemma sendMessage_recording (now : Z) (s : ConversationManager.t) :
  isListening (sendMessage now s) = isListening s
  /\ recordingActive (sendMessage now s) = recordingActive s
  /\ body_recording_active (sendMessage now s) = body_recording_active s
  /\ voice_btn_listening (sendMessage now s) = voice_btn_listening s.
Proof.
  unfold sendMessage.
  destruct (isTutorTyping s || negb (tutorHasGreeted s)); [auto|].
  destruct (String.eqb (trim (input_value s)) EmptyString); simpl; auto.
Qed.

(** The [try] block of [stopVoiceInput] shows a notice, does nothing, or
    submits a transcript through [sendMessage]. *)
Lemma stopVoiceInput_try_cases (o : FetchOutcome SttStopData) (now : Z)
    (s : ConversationManager.t) :
  (exists notice, stopVoiceInput_try o now s = set_system_status notice s)
  \/ stopVoiceInput_try o now s = s
  \/ (exists txt,
        stopVoiceInput_try o now s = sendMessage now (set_input_value txt s)).
Proof.
  unfold stopVoiceInput_try, showSystemStatus.
  destruct o as [m|st [[d|]|m]]; try (left; eexists; reflexivity).
  destruct (stop_success d).
  - destruct (match truthy (stop_text d) with
              | Some txt => truthy (Some (trim txt))
              | None => None
              end) as [spoken|]; [|left; eexists; reflexivity].
    destruct (String.eqb spoken "LEGAL"); [left; eexists; reflexivity|].
    right. right. eexists. reflexivity.
  - destruct (match truthy (stop_text d) with
              | Some txt => truthy (Some (trim txt))
              | None => None
              end);
      (destruct (truthy (stop_message d)) as [m|];
       [destruct (includes (toLowerCase m) "no recording in progress")|]);
      first [right; left; reflexivity | left; eexists; reflexivity].
Qed.

(** Leaving touches the requests and the navigation only. *)
Lemma goBackToDashboard_frame (awardXP : bool) (now : Z)
    (s : ConversationManager.t) :
  let s' := goBackToDashboard awardXP now s in
  messages s' = messages s
  /\ messageCount s' = messageCount s
  /\ isListening s' = isListening s
  /\ recordingActive s' = recordingActive s
  /\ body_recording_active s' = body_recording_active s
  /\ voice_btn_listening s' = voice_btn_listening s
  /\ conversationComplete s' = conversationComplete s
  /\ tutorHasGreeted s' = tutorHasGreeted s
  /\ currentTopic s' = currentTopic s
  /\ (exists sent, requests s' = requests s ++ sent).
Proof.
  cbv zeta. unfold goBackToDashboard, stopVoiceInput.
  destruct (isListening s) eqn:El; simpl;
    match goal with
    | |- context [if ?c then _ else _] => destruct c
    end; simpl; rewrite ?El, <- ?app_assoc;
    repeat apply conj; try reflexivity; eexists; reflexivity.
Qed.

Lemma step_keeps_lock (e : Event) (now : Z) (s : ConversationManager.t) :
  lock_follows_listening s -> lock_follows_listening (step names e now s).
Proof.
  unfold lock_follows_listening. intros [H1 H2].
  destruct e as [topicId|o|txt| |o| |o|o| | ]; cbn [step];
    try (simpl; split; assumption).
  - destruct (sendMessage_recording now s) as [E1 [_ [E2 E3]]].
    rewrite E1, E2, E3. auto.
  - unfold sendMessage_resume. destruct (sendToBackend_resume o) as [r|m];
      [destruct r as [d|]; [destruct (truthy (ai_response d)) as [txt|];
         [destruct (includes txt "LESSON_COMPLETE")|]|]|]; simpl; auto.
  - unfold toggleVoiceInput, startVoiceInput, stopVoiceInput.
    destruct (isTutorTyping s || negb (tutorHasGreeted s)); simpl; [auto|].
    destruct (isListening s) eqn:El; [destruct (recordingActive s)|]; simpl;
      rewrite ?El; auto.
  - unfold startVoiceInput_resume, stopVoiceInput.
    destruct o as [m|st [[d|]|m]]; simpl;
      try (destruct (start_success d && start_recording d); simpl);
      destruct (isListening s) eqn:El; simpl; rewrite ?El; auto.
  - split; reflexivity.
  - unfold handleBackToDashboard, showLeaveConfirmation.
    destruct (conversationComplete s); [|simpl; auto].
    destruct (goBackToDashboard_frame true now s)
      as [_ [_ [E1 [_ [E2 [E3 _]]]]]].
    rewrite E1, E2, E3. auto.
  - unfold confirmLeave.
    destruct (goBackToDashboard_frame false now
                (set_navigation false (dashboard_shown s) s))
      as [_ [_ [E1 [_ [E2 [E3 _]]]]]].
    rewrite E1, E2, E3. simpl. auto.
Qed.

Lemma filter_user_app (l : list Message) (m : Message) :
  Z.of_nat (List.length (filter is_user_message (l ++ [m])))
  = Z.of_nat (List.length (filter is_user_message l))
    + (if is_user_message m then 1 else 0).
Proof.
  rewrite filter_app, length_app. simpl.
  destruct (is_user_message m); simpl; lia.
Qed.

Lemma sendMessage_keeps_count (now : Z) (s : ConversationManager.t) :
  count_matches_log s -> count_matches_log (sendMessage now s).
Proof.
  unfold count_matches_log, user_messages, sendMessage. intros H.
  destruct (isTutorTyping s || negb (tutorHasGreeted s)); [exact H|].
  destruct (String.eqb (trim (input_value s)) EmptyString); [exact H|].
  simpl. rewrite filter_user_app. simpl. lia.
Qed.

Lemma step_keeps_count (e : Event) (now : Z) (s : ConversationManager.t) :
  count_matches_log s -> count_matches_log (step names e now s).
Proof.
  intros H.
  destruct e as [topicId|o|txt| |o| |o|o| | ]; cbn [step].
  - reflexivity.
  - unfold count_matches_log, user_messages in *. simpl.
    rewrite filter_user_app. simpl. lia.
  - exact H.
  - now apply sendMessage_keeps_count.
  - unfold count_matches_log, user_messages, sendMessage_resume in *.
    destruct (sendToBackend_resume o) as [r|m];
      [destruct r as [d|]; [destruct (truthy (ai_response d)) as [txt|];
         [destruct (includes txt "LESSON_COMPLETE")|]|]|]; simpl;
      unfold showCompletionMessage, addMessage; simpl;
      rewrite ?filter_user_app; simpl; rewrite ?filter_user_app; simpl; lia.
  - unfold toggleVoiceInput, startVoiceInput, stopVoiceInput.
    destruct (isTutorTyping s || negb (tutorHasGreeted s)); [exact H|].
    destruct (isListening s); [destruct (recordingActive s)|]; simpl; exact H.
  - unfold startVoiceInput_resume, stopVoiceInput.
    destruct o as [m|st [[d|]|m]]; simpl;
      try (destruct (start_success d && start_recording d); simpl);
      destruct (isListening s); simpl; exact H.
  - unfold stopVoiceInput_resume, stopVoiceInput_finally.
    destruct (stopVoiceInput_try_cases o now s) as [[notice E]|[E|[txt E]]];
      rewrite E.
    + exact H.
    + exact H.
    + apply (sendMessage_keeps_count now (set_input_value txt s)). exact H.
  - unfold handleBackToDashboard, showLeaveConfirmation.
    destruct (conversationComplete s); [|exact H].
    destruct (goBackToDashboard_frame true now s) as [E1 [E2 _]].
    unfold count_matches_log, user_messages in *. now rewrite E1, E2.
  - unfold confirmLeave.
    destruct (goBackToDashboard_frame false now
                (set_navigation false (dashboard_shown s) s)) as [E1 [E2 _]].
    unfold count_matches_log, user_messages in *. now rewrite E1, E2.
Qed.

(** Property X20.  Whatever the learner does and however the requests settle, in any
    order, the page is locked and the voice button marked exactly while
    the session is listening, and the message count is the number of
    messages of the learner in the log. *)
Theorem session_invariants (events : list (Event * Z))
    (s : ConversationManager.t) :
  lock_follows_listening s ->
  count_matches_log s ->
  lock_follows_listening (run names events s)
  /\ count_matches_log (run names events s).
Proof.
  revert s. induction events as [|[e now] events IH]; intros s Hl Hc; simpl.
  - split; assumption.
  - apply IH; [now apply step_keeps_lock|now apply step_keeps_count].
Qed.

(** Property X21.  Apart from the start of a conversation, which clears the log, no
    event removes or alters a logged message, un-greets the tutor or
    revokes a completion; and no event at all withdraws a request. *)
Theorem log_only_grows (e : Event) (now : Z) (s : ConversationManager.t) :
  let s' := step names e now s in
  (exists sent, requests s' = requests s ++ sent)
  /\ (starts_conversation e = false ->
      (exists added, messages s' = messages s ++ added)
      /\ (conversationComplete s = true -> conversationComplete s' = true)
      /\ (tutorHasGreeted s = true -> tutorHasGreeted s' = true)
      /\ currentTopic s' = currentTopic s).
Proof.
  cbv zeta.
  assert (Hsend : forall now s,
            (exists sent, requests (sendMessage now s) = requests s ++ sent)
            /\ (exists added, messages (sendMessage now s) = messages s ++ added)
            /\ conversationComplete (sendMessage now s) = conversationComplete s
            /\ tutorHasGreeted (sendMessage now s) = tutorHasGreeted s
            /\ currentTopic (sendMessage now s) = currentTopic s).
  { clear. intros now s. unfold sendMessage.
    destruct (isTutorTyping s || negb (tutorHasGreeted s));
      [|destruct (String.eqb (trim (input_value s)) EmptyString)]; simpl;
      repeat apply conj; try reflexivity;
      try (exists []; now rewrite app_nil_r);
      eexists; reflexivity. }
  destruct e as [topicId|o|txt| |o| |o|o| | ]; cbn [step].
  - split; [eexists; reflexivity|discriminate].
  - split; [exists []; now rewrite app_nil_r|]. intros _.
    repeat apply conj; auto. eexists; reflexivity.
  - split; [exists []; now rewrite app_nil_r|]. intros _.
    repeat apply conj; auto. exists []; now rewrite app_nil_r.
  - destruct (Hsend now s) as [H1 [H2 [H3 [H4 H5]]]].
    split; [exact H1|]. intros _. rewrite H3, H4. auto.
  - split.
    + exists []. rewrite app_nil_r. unfold sendMessage_resume.
      destruct (sendToBackend_resume o) as [r|m];
        [destruct r as [d|]; [destruct (truthy (ai_response d)) as [txt|];
           [destruct (includes txt "LESSON_COMPLETE")|]|]|]; reflexivity.
    + intros _. unfold sendMessage_resume.
      destruct (sendToBackend_resume o) as [r|m];
        [destruct r as [d|]; [destruct (truthy (ai_response d)) as [txt|];
           [destruct (includes txt "LESSON_COMPLETE")|]|]|]; simpl;
        unfold showCompletionMessage, addMessage; simpl;
        rewrite <- ?app_assoc;
        repeat apply conj; auto; eexists; reflexivity.
  - unfold toggleVoiceInput, startVoiceInput, stopVoiceInput.
    destruct (isTutorTyping s || negb (tutorHasGreeted s));
      [|destruct (isListening s); [destruct (recordingActive s)|]]; simpl;
      (split; [first [exists []; now rewrite app_nil_r | eexists; reflexivity]|]);
      intros _; repeat apply conj; auto; exists []; now rewrite app_nil_r.
  - unfold startVoiceInput_resume, stopVoiceInput.
    destruct o as [m|st [[d|]|m]]; simpl;
      try (destruct (start_success d && start_recording d); simpl);
      destruct (isListening s); simpl;
      (split; [first [exists []; now rewrite app_nil_r | eexists; reflexivity]|]);
      intros _; repeat apply conj; auto; exists []; now rewrite app_nil_r.
  - unfold stopVoiceInput_resume, stopVoiceInput_finally.
    destruct (stopVoiceInput_try_cases o now s) as [[notice E]|[E|[txt E]]];
      rewrite E; simpl.
    + split; [exists []; now rewrite app_nil_r|]. intros _.
      repeat apply conj; auto. exists []; now rewrite app_nil_r.
    + split; [exists []; now rewrite app_nil_r|]. intros _.
      repeat apply conj; auto. exists []; now rewrite app_nil_r.
    + destruct (Hsend now (set_input_value txt s)) as [H1 [H2 [H3 [H4 H5]]]].
      split; [exact H1|]. intros _. rewrite H3, H4, H5. auto.
  - unfold handleBackToDashboard, showLeaveConfirmation.
    destruct (conversationComplete s) eqn:Ec.
    + destruct (goBackToDashboard_frame true now s)
        as [E1 [_ [_ [_ [_ [_ [E2 [E3 [E4 E5]]]]]]]]].
      split; [exact E5|]. intros _. rewrite E1, E2, E3, E4.
      repeat apply conj; auto. exists []; now rewrite app_nil_r.
    + split; [exists []; now rewrite app_nil_r|]. intros _.
      repeat apply conj; auto; try discriminate.
      exists []; now rewrite app_nil_r.
  - unfold confirmLeave.
    destruct (goBackToDashboard_frame false now
                (set_navigation false (dashboard_shown s) s))
      as [E1 [_ [_ [_ [_ [_ [E2 [E3 [E4 E5]]]]]]]]].
    split; [exact E5|]. intros _. rewrite E1, E2, E3, E4. simpl.
    repeat apply conj; auto. exists []; now rewrite app_nil_r.
Qed.

End MachineFacts.

Lemma session_invariants_witness :
  lock_follows_listening
    (run topic_names
         [(ClickBack, 9600); (ClickLeave, 9700);
          (SttStopSettled no_recording_reply, 9800);
          (SttStartSettled recording_started_reply, 9900)]
         starting_session)
  /\ count_matches_log
       (run topic_names
            [(ClickBack, 9600); (ClickLeave, 9700);
             (SttStopSettled no_recording_reply, 9800);
             (SttStartSettled recording_started_reply, 9900)]
            starting_session).
Proof.
  refine (session_invariants topic_names _ starting_session _ _).
  - split; reflexivity.
  - reflexivity.
Defined.

(** ** Trimming *)

Lemma trimStart_clean (s : string) : starts_clean (trimStart s).
Proof.
  induction s as [|c s IH]; simpl; [exact I|].
  destruct (is_space c) eqn:E; [exact IH|exact E].
Qed.

Lemma trimStart_id (s : string) : starts_clean s -> trimStart s = s.
Proof.
  destruct s as [|c s]; simpl; [reflexivity|]. now intros ->.
Qed.

Lemma trimEnd_clean (s : string) : starts_clean s -> starts_clean (trimEnd s).
Proof.
  destruct s as [|c s]; simpl; [auto|]. intros E.
  destruct (trimEnd s); [rewrite E|]; exact E.
Qed.

Lemma trimEnd_idempotent (s : string) : trimEnd (trimEnd s) = trimEnd s.
Proof.
  induction s as [|c s IH]; simpl; [reflexivity|].
  destruct (trimEnd s) as [|c' r] eqn:E.
  - destruct (is_space c) eqn:Ec; simpl; [reflexivity|now rewrite Ec].
  - simpl in *. now rewrite IH.
Qed.

Lemma trim_idempotent (s : string) : trim (trim s) = trim s.
Proof.
  unfold trim.
  rewrite (trimStart_id (trimEnd (trimStart s))).
  - apply trimEnd_idempotent.
  - apply trimEnd_clean, trimStart_clean.
Qed.

(** ** Failures, voice input and leaving *)

Lemma http_statuses_checked :
  forallb
    (fun n =>
       let status := 100 + Z.of_nat n in
       ok status
       || String.eqb
            (failureMessage ("HTTP error! status: " ++ toString status))
            (if status =? 500 then server_error_reply
             else connection_error_reply))
    (seq 0 500)
  = true.
Proof. vm_compute. reflexivity. Qed.

(** Property X22.  An HTTP error status is never reported as a failure to connect: of
    the statuses 100 to 599 outside 200 to 299, only 500 is answered by
    the server-error message; every other one, 502 and 503 included, is
    answered by the general connection-error message. *)
Theorem http_error_replies (s : ConversationManager.t) (status : Z)
    (json : completion (option ChatData)) (now : Z) :
  100 <= status <= 599 ->
  ok status = false ->
  let s' := sendMessage_resume (Response status json) now s in
  messages s'
  = messages s
    ++ [{| sender := ai_sender;
           text := if status =? 500 then server_error_reply
                   else connection_error_reply;
           farsiTranslation := None;
           timestamp := now |}]
  /\ input_disabled s' = false
  /\ isTutorTyping s' = false.
Proof.
  intros Hrange Hok. cbv zeta.
  unfold sendMessage_resume, sendToBackend_resume. rewrite Hok. simpl.
  pose proof http_statuses_checked as Hall.
  rewrite forallb_forall in Hall.
  specialize (Hall (Z.to_nat (status - 100))).
  cbv zeta in Hall.
  replace (100 + Z.of_nat (Z.to_nat (status - 100))) with status in Hall by lia.
  rewrite Hok in Hall. simpl in Hall.
  assert (Hin : In (Z.to_nat (status - 100)) (seq 0 500)).
  { apply in_seq. lia. }
  apply Hall in Hin. apply String.eqb_eq in Hin.
  unfold addMessage. simpl. rewrite Hin. auto.
Qed.

Lemma http_error_replies_witness :
  let s := sendMessage 10000 greeted_session in
  let s' := sendMessage_resume (Response 503 (Normal None)) 12000 s in
  messages s'
  = messages s
    ++ [{| sender := ai_sender;
           text := connection_error_reply;
           farsiTranslation := None;
           timestamp := 12000 |}]
  /\ input_disabled s' = false
  /\ isTutorTyping s' = false.
Proof.
  refine (http_error_replies (sendMessage 10000 greeted_session) 503
            (Normal None) 12000 _ _).
  - lia.
  - reflexivity.
Defined.





(** Property X25.  A start of the recording that fails, in whatever way, is unwound: the
    stop request follows the start request, and once it has settled, in
    whatever way, the session is not listening, the recording is not
    active and the page is unlocked. *)
Theorem failed_start_is_unwound (s : ConversationManager.t)
    (started : FetchOutcome SttStartData) (stopped : FetchOutcome SttStopData)
    (now : Z) :
  isTutorTyping s = false ->
  tutorHasGreeted s = true ->
  isListening s = false ->
  recording_started started = false ->
  let tapped := toggleVoiceInput s in
  let failed := startVoiceInput_resume started tapped in
  let s' := stopVoiceInput_resume stopped now failed in
  isListening tapped = true /\ recordingActive tapped = false
  /\ body_recording_active tapped = true
  /\ requests failed = requests s ++ [POST_stt_start; POST_stt_stop]
  /\ (exists notice, system_status failed = Some (notice, error))
  /\ isListening s' = false /\ recordingActive s' = false
  /\ body_recording_active s' = false /\ voice_btn_listening s' = false.
Proof.
  intros Ht Hg Hl Hfail. cbv zeta.
  unfold toggleVoiceInput, startVoiceInput. rewrite Ht, Hg, Hl. simpl.
  repeat apply conj; try reflexivity.
  - unfold startVoiceInput_resume, stopVoiceInput.
    destruct started as [m|st [[d|]|m]]; simpl in *; try rewrite Hfail; simpl;
      rewrite <- app_assoc; reflexivity.
  - unfold startVoiceInput_resume, stopVoiceInput.
    destruct started as [m|st [[d|]|m]]; simpl in *; try rewrite Hfail; simpl;
      eexists; reflexivity.
Qed.

Lemma failed_start_is_unwound_witness :
  let s := greeted_session in
  let tapped := toggleVoiceInput s in
  let failed := startVoiceInput_resume (Rejected "Failed to fetch") tapped in
  let s' := stopVoiceInput_resume no_recording_reply 9900 failed in
  isListening tapped = true /\ recordingActive tapped = false
  /\ body_recording_active tapped = true
  /\ requests failed = requests s ++ [POST_stt_start; POST_stt_stop]
  /\ (exists notice, system_status failed = Some (notice, error))
  /\ isListening s' = false /\ recordingActive s' = false
  /\ body_recording_active s' = false /\ voice_btn_listening s' = false.
Proof.
  refine (failed_start_is_unwound greeted_session (Rejected "Failed to fetch")
            no_recording_reply 9900 _ _ _ _); reflexivity.
Defined.


